(** * GaiaFunctions: equatorial to Galactic transformations

    A shallow embedding of [GaiaFunctions.py] (equatorial_galactic,
    equatorial_XYZ, equatorial_UVW) and the properties of its
    specification.

    Modelling choices.
    - A Python number (float, numpy.float64) is a real number of [R]; the
      rounding, overflow and NaN of IEEE binary64 are outside the model.
    - A function argument is a [value]: a scalar or a one-dimensional numpy
      array.  An optional keyword argument is an [option value], [None]
      being Python's [None].
    - A raised exception is the [Raise] result of the [res] monad; each
      Python statement that can raise is one monadic bind, in source order.
    - numpy's element-wise arithmetic is [np_binop], which broadcasts as
      numpy does (a scalar or a length-1 array against anything; two arrays
      of unequal lengths, none of them 1, raise ValueError). *)

From Stdlib Require Import String.
From Stdlib Require Import Reals Lra Lia List Bool Arith ZArith.
From Stdlib Require Import Zfloor.
Import ListNotations.

Open Scope R_scope.

(** ** Python values, exceptions *)

Inductive value : Type :=
| Scalar (x : R)
| Array (xs : list R).

Inductive exn : Type :=
| ValueError (msg : string)
| TypeError (msg : string)
| IndexError (msg : string).

Inductive res (A : Type) : Type :=
| Ok (a : A)
| Raise (e : exn).

Arguments Ok {A} a.
Arguments Raise {A} e.

Definition bind {A B : Type} (m : res A) (k : A -> res B) : res B :=
  match m with
  | Ok a => k a
  | Raise e => Raise e
  end.

Notation "x <- m ;; k" := (bind m (fun x => k))
  (at level 61, m at next level, right associativity).

(** A Python float used where numpy expects an array operand, and a
    variable used inside an expression. *)
Definition pure_value (v : value) : res value := Ok v.

Coercion Scalar : R >-> value.
Coercion pure_value : value >-> res.

(** ** The numpy primitives the module uses *)

(** [np.size]: the number of elements; 1 for a scalar. *)
Definition np_size (v : value) : nat :=
  match v with
  | Scalar _ => 1%nat
  | Array xs => length xs
  end.

(** [len]: defined on sequences only. *)
Definition py_len (v : value) : res nat :=
  match v with
  | Scalar _ => Raise (TypeError "object of type 'float' has no len()")
  | Array xs => Ok (length xs)
  end.

(** [v[i]] for [i] in range. *)
Definition getitem (v : value) (i : nat) : res R :=
  match v with
  | Scalar _ => Raise (TypeError "'float' object is not subscriptable")
  | Array xs =>
      match nth_error xs i with
      | Some x => Ok x
      | None => Raise (IndexError "index out of bounds")
      end
  end.

(** [np.zeros(n)]. *)
Definition np_zeros (n : nat) : value := Array (repeat 0 n).

(** A Python list of floats handed to a numpy operator is converted by
    [np.asarray]. *)
Definition np_asarray (l : list R) : value := Array l.

Fixpoint zip_with (f : R -> R -> R) (xs ys : list R) : list R :=
  match xs, ys with
  | x :: xs', y :: ys' => f x y :: zip_with f xs' ys'
  | _, _ => []
  end.

(** Element-wise binary operation with numpy's broadcasting on
    one-dimensional operands. *)
Definition broadcast (f : R -> R -> R) (a b : value) : res value :=
  match a, b with
  | Scalar x, Scalar y => Ok (Scalar (f x y))
  | Scalar x, Array ys => Ok (Array (map (f x) ys))
  | Array xs, Scalar y => Ok (Array (map (fun x => f x y) xs))
  | Array xs, Array ys =>
      if (length xs =? length ys)%nat then Ok (Array (zip_with f xs ys))
      else
        match xs, ys with
        | [x], _ => Ok (Array (map (f x) ys))
        | _, [y] => Ok (Array (map (fun x => f x y) xs))
        | _, _ =>
            Raise (ValueError "operands could not be broadcast together")
        end
  end.

Definition np_binop (f : R -> R -> R) (a b : res value) : res value :=
  x <- a ;; y <- b ;; broadcast f x y.

Definition umap (f : R -> R) (v : value) : value :=
  match v with
  | Scalar x => Scalar (f x)
  | Array xs => Array (map f xs)
  end.

Definition np_unop (f : R -> R) (a : res value) : res value :=
  x <- a ;; Ok (umap f x).

(** [np.radians], [np.degrees]. *)
Definition radians (x : R) : R := x * (PI / 180).
Definition degrees (x : R) : R := x * (180 / PI).

(** The two-argument arctangent [arctan2(y, x)], the angle of the point
    [(x, y)] in (-PI, PI]. *)
Definition arctan2 (y x : R) : R :=
  if Rlt_dec 0 x then atan (y / x)
  else if Rlt_dec x 0 then
         if Rle_dec 0 y then atan (y / x) + PI else atan (y / x) - PI
       else if Rlt_dec 0 y then PI / 2
            else if Rlt_dec y 0 then - (PI / 2)
                 else 0.

(** Python's [%] on floats: the remainder has the sign of the divisor,
    [x - floor(x / y) * y]. *)
Definition py_mod (x y : R) : R := x - IZR (Zfloor (x / y)) * y.

Definition np_sin := np_unop sin.
Definition np_cos := np_unop cos.
Definition np_radians := np_unop radians.
Definition np_degrees := np_unop degrees.
Definition np_arcsin := np_unop asin.
Definition np_sqrt := np_unop sqrt.
Definition np_abs := np_unop Rabs.
Definition np_arctan2 := np_binop arctan2.
Definition np_pow (a : res value) (n : nat) : res value :=
  np_unop (fun x => x ^ n) a.

Declare Scope np_scope.
Delimit Scope np_scope with np.
Notation "a + b" := (np_binop Rplus a b) : np_scope.
Notation "a - b" := (np_binop Rminus a b) : np_scope.
Notation "a * b" := (np_binop Rmult a b) : np_scope.
Notation "a / b" := (np_binop Rdiv a b) : np_scope.
Notation "a % b" := (np_binop py_mod a b)
  (at level 40, left associativity) : np_scope.
Notation "a ** n" := (np_pow a n)
  (at level 30, right associativity) : np_scope.

(** ** Global constants *)

Definition kappa : R := 0.004743717361.

Definition ra_pol : R := 192.8595.
Definition dec_pol : R := 27.12825.

Definition l_north : R := 122.932.

Definition sin_dec_pol : R := sin (radians dec_pol).
Definition cos_dec_pol : R := cos (radians dec_pol).

Definition TGAL : list (list R) :=
  [ [-0.0548755604; -0.8734370902; -0.4838350155];
    [0.4941094279; -0.4448296300; 0.7469822445];
    [-0.8676661490; -0.1980763734; 0.4559837762] ].

(** [TGAL[i,j]]. *)
Definition TGAL_at (i j : nat) : R := nth j (nth i TGAL []) 0.

(** ** equatorial_galactic *)

Definition equatorial_galactic (ra dec : value) : res (value * value) :=
  (* Check for parameter consistency *)
  let num_stars := np_size ra in
  if negb (np_size dec =? num_stars)%nat then
    Raise (ValueError "The dimensions ra and dec do not agree. They must all be numpy arrays of the same length.")
  else
  (* Compute intermediate quantities *)
  ra_m_ra_pol <- (ra - ra_pol)%np ;;
  sin_ra <- np_sin (np_radians ra_m_ra_pol) ;;
  cos_ra <- np_cos (np_radians ra_m_ra_pol) ;;
  sin_dec <- np_sin (np_radians dec) ;;
  cos_dec <- np_cos (np_radians dec) ;;
  (* Compute Galactic latitude *)
  gamma <- (sin_dec_pol * sin_dec + cos_dec_pol * cos_dec * cos_ra)%np ;;
  gb <- np_degrees (np_arcsin gamma) ;;
  (* Compute Galactic longitude *)
  x1 <- (cos_dec * sin_ra)%np ;;
  x2 <- ((sin_dec - sin_dec_pol * gamma) / cos_dec_pol)%np ;;
  gl <- (l_north - np_degrees (np_arctan2 x1 x2))%np ;;
  gl <- ((gl + 360) % 360)%np ;;
  (* Return Galactic coordinates tuple *)
  Ok (gl, gb).

(** ** equatorial_XYZ *)

(** [e is not None and np.size(e) != num_stars]. *)
Definition supplied_mismatch (e : option value) (num_stars : nat) : bool :=
  match e with
  | Some v => negb (np_size v =? num_stars)%nat
  | None => false
  end.

Definition equatorial_XYZ (ra dec dist : value) (dist_error : option value)
  : res (list value) :=
  (* Verify keywords *)
  let num_stars := np_size ra in
  if negb (np_size dec =? num_stars)%nat
     || negb (np_size dist =? num_stars)%nat then
    Raise (ValueError "ra, dec and distance must all be numpy arrays of the same size !")
  else if supplied_mismatch dist_error num_stars then
    Raise (ValueError "dist_error must be a numpy array of the same size as ra !")
  else
  (* Compute Galactic coordinates *)
  glgb <- equatorial_galactic ra dec ;;
  let '(gl, gb) := glgb in
  cos_gl <- np_cos (np_radians gl) ;;
  cos_gb <- np_cos (np_radians gb) ;;
  sin_gl <- np_sin (np_radians gl) ;;
  sin_gb <- np_sin (np_radians gb) ;;
  X <- (cos_gb * cos_gl * dist)%np ;;
  Y <- (cos_gb * sin_gl * dist)%np ;;
  Z <- (sin_gb * dist)%np ;;
  match dist_error with
  | Some dist_error =>
      X_dist <- (cos_gb * cos_gl)%np ;;
      EX <- np_abs (X_dist * dist_error)%np ;;
      Y_dist <- (cos_gb * sin_gl)%np ;;
      EY <- np_abs (Y_dist * dist_error)%np ;;
      let Z_dist := sin_gb in
      EZ <- np_abs (Z_dist * dist_error)%np ;;
      Ok [X; Y; Z; EX; EY; EZ]
  | None => Ok [X; Y; Z]
  end.

(** ** equatorial_UVW *)

(** The loop
    [for i in range(len(v)): red = kappa*v[i]; out.append(red)]
    over the indices [idxs], [out] being the list built so far. *)
Fixpoint kappa_loop (v : value) (idxs : list nat) (out : list R)
  : res (list R) :=
  match idxs with
  | [] => Ok out
  | i :: rest =>
      x <- getitem v i ;;
      let red := kappa * x in
      kappa_loop v rest (out ++ [red])
  end.

Definition kappa_times (v : value) : res (list R) :=
  n <- py_len v ;; kappa_loop v (seq 0 n) [].

Definition is_None (e : option value) : bool :=
  match e with
  | None => true
  | Some _ => false
  end.

(** [if e is None: e = np.zeros(num_stars)]. *)
Definition zeros_if_None (e : option value) (num_stars : nat) : value :=
  match e with
  | None => np_zeros num_stars
  | Some v => v
  end.

Definition equatorial_UVW (ra dec pmra pmdec rv dist : value)
  (pmra_error pmdec_error rv_error dist_error : option value)
  : res (list value) :=
  (* Verify keywords *)
  let num_stars := np_size ra in
  if negb (np_size dec =? num_stars)%nat
     || negb (np_size pmra =? num_stars)%nat
     || negb (np_size pmdec =? num_stars)%nat
     || negb (np_size dist =? num_stars)%nat then
    Raise (ValueError "ra, dec, pmra, pmdec, rv and distance must all be numpy arrays of the same size !")
  else if supplied_mismatch pmra_error num_stars then
    Raise (ValueError "pmra_error must be a numpy array of the same size as ra !")
  else if supplied_mismatch pmdec_error num_stars then
    Raise (ValueError "pmdec_error must be a numpy array of the same size as ra !")
  else if supplied_mismatch rv_error num_stars then
    Raise (ValueError "rv_error must be a numpy array of the same size as ra !")
  else if supplied_mismatch dist_error num_stars then
    Raise (ValueError "dist_error must be a numpy array of the same size as ra !")
  else
  (* Compute elements of the T matrix *)
  cos_ra <- np_cos (np_radians ra) ;;
  cos_dec <- np_cos (np_radians dec) ;;
  sin_ra <- np_sin (np_radians ra) ;;
  sin_dec <- np_sin (np_radians dec) ;;
  T1 <- (TGAL_at 0 0 * cos_ra * cos_dec + TGAL_at 0 1 * sin_ra * cos_dec
         + TGAL_at 0 2 * sin_dec)%np ;;
  T2 <- (- TGAL_at 0 0 * sin_ra + TGAL_at 0 1 * cos_ra)%np ;;
  T3 <- (- TGAL_at 0 0 * cos_ra * sin_dec - TGAL_at 0 1 * sin_ra * sin_dec
         + TGAL_at 0 2 * cos_dec)%np ;;
  T4 <- (TGAL_at 1 0 * cos_ra * cos_dec + TGAL_at 1 1 * sin_ra * cos_dec
         + TGAL_at 1 2 * sin_dec)%np ;;
  T5 <- (- TGAL_at 1 0 * sin_ra + TGAL_at 1 1 * cos_ra)%np ;;
  T6 <- (- TGAL_at 1 0 * cos_ra * sin_dec - TGAL_at 1 1 * sin_ra * sin_dec
         + TGAL_at 1 2 * cos_dec)%np ;;
  T7 <- (TGAL_at 2 0 * cos_ra * cos_dec + TGAL_at 2 1 * sin_ra * cos_dec
         + TGAL_at 2 2 * sin_dec)%np ;;
  T8 <- (- TGAL_at 2 0 * sin_ra + TGAL_at 2 1 * cos_ra)%np ;;
  T9 <- (- TGAL_at 2 0 * cos_ra * sin_dec - TGAL_at 2 1 * sin_ra * sin_dec
         + TGAL_at 2 2 * cos_dec)%np ;;
  (* Calculate UVW *)
  reduced_dist <- kappa_times dist ;;
  let reduced_dist := np_asarray reduced_dist in
  U <- (T1 * rv + T2 * pmra * reduced_dist + T3 * pmdec * reduced_dist)%np ;;
  V <- (T4 * rv + T5 * pmra * reduced_dist + T6 * pmdec * reduced_dist)%np ;;
  W <- (T7 * rv + T8 * pmra * reduced_dist + T9 * pmdec * reduced_dist)%np ;;
  (* Return only (U, V, W) tuple if no errors are set *)
  if is_None pmra_error && is_None pmdec_error && is_None rv_error
     && is_None dist_error then
    Ok [U; V; W]
  else
  (* Propagate errors if they are specified *)
  let pmra_error := zeros_if_None pmra_error num_stars in
  let pmdec_error := zeros_if_None pmdec_error num_stars in
  let rv_error := zeros_if_None rv_error num_stars in
  let dist_error := zeros_if_None dist_error num_stars in
  reduced_dist_error <- kappa_times dist_error ;;
  let reduced_dist_error := np_asarray reduced_dist_error in
  (* Calculate derivatives *)
  T23_pm <- np_sqrt ((T2 * pmra) ** 2 + (T3 * pmdec) ** 2)%np ;;
  T23_pm_error <-
    np_sqrt ((T2 * pmra_error) ** 2 + (T3 * pmdec_error) ** 2)%np ;;
  EU_rv <- (T1 * rv_error)%np ;;
  EU_pm <- (T23_pm_error * reduced_dist)%np ;;
  EU_dist <- (T23_pm * reduced_dist_error)%np ;;
  EU_dist_pm <- (T23_pm_error * reduced_dist_error)%np ;;
  T56_pm <- np_sqrt ((T5 * pmra) ** 2 + (T6 * pmdec) ** 2)%np ;;
  T56_pm_error <-
    np_sqrt ((T5 * pmra_error) ** 2 + (T6 * pmdec_error) ** 2)%np ;;
  EV_rv <- (T4 * rv_error)%np ;;
  EV_pm <- (T56_pm_error * reduced_dist)%np ;;
  EV_dist <- (T56_pm * reduced_dist_error)%np ;;
  EV_dist_pm <- (T56_pm_error * reduced_dist_error)%np ;;
  T89_pm <- np_sqrt ((T8 * pmra) ** 2 + (T9 * pmdec) ** 2)%np ;;
  T89_pm_error <-
    np_sqrt ((T8 * pmra_error) ** 2 + (T9 * pmdec_error) ** 2)%np ;;
  EW_rv <- (T7 * rv_error)%np ;;
  EW_pm <- (T89_pm_error * reduced_dist)%np ;;
  EW_dist <- (T89_pm * reduced_dist_error)%np ;;
  EW_dist_pm <- (T89_pm_error * reduced_dist_error)%np ;;
  (* Calculate error bars *)
  EU <- np_sqrt (EU_rv ** 2 + EU_pm ** 2 + EU_dist ** 2 + EU_dist_pm ** 2)%np ;;
  EV <- np_sqrt (EV_rv ** 2 + EV_pm ** 2 + EV_dist ** 2 + EV_dist_pm ** 2)%np ;;
  EW <- np_sqrt (EW_rv ** 2 + EW_pm ** 2 + EW_dist ** 2 + EW_dist_pm ** 2)%np ;;
  (* Return measurements and error bars *)
  Ok [U; V; W; EU; EV; EW].

(** ** Reading arrays element by element *)

(** [tab n f] is the array [f 0, ..., f (n-1)]. *)
Definition tab (n : nat) (f : nat -> R) : list R := map f (seq 0 n).

(** Element [i] of a value; a scalar stands for each of its copies. *)
Definition item (v : value) : nat -> R :=
  match v with
  | Scalar x => fun _ => x
  | Array xs => fun i => nth i xs 0
  end.

Definition is_array (v : value) : bool :=
  match v with
  | Scalar _ => false
  | Array _ => true
  end.

(** An array of [n] elements. *)
Definition has_len (n : nat) (v : value) : Prop :=
  match v with
  | Scalar _ => False
  | Array xs => length xs = n
  end.

(** An optional array: absent, or of [n] elements. *)
Definition opt_has_len (n : nat) (e : option value) : Prop :=
  match e with
  | Some v => has_len n v
  | None => True
  end.

(** An array of [n] zeros. *)
Definition zeros (n : nat) (v : value) : Prop :=
  has_len n v /\ forall i, (i < n)%nat -> item v i = 0.

(** An optional array: absent, or [n] zeros. *)
Definition opt_zero (n : nat) (e : option value) : Prop :=
  match e with
  | Some v => zeros n v
  | None => True
  end.

(** An optional value: absent, or of size [n]. *)
Definition opt_size_ok (n : nat) (e : option value) : Prop :=
  match e with
  | Some v => np_size v = n
  | None => True
  end.

(** The result of an element-wise operation: an array as soon as one
    operand is an array, a scalar otherwise. *)
Definition shaped (arr : bool) (n : nat) (f : nat -> R) : value :=
  if arr then Array (tab n f) else Scalar (f 0%nat).

Definition tab_opt (n : nat) (o : option (nat -> R)) : option value :=
  option_map (fun f => Array (tab n f)) o.

Definition or_zero (o : option (nat -> R)) : nat -> R :=
  match o with
  | Some f => f
  | None => fun _ => 0
  end.

Definition all_None (pmra_error pmdec_error rv_error dist_error : option value)
  : bool :=
  is_None pmra_error && is_None pmdec_error && is_None rv_error
  && is_None dist_error.

(** ** The formulas of the specification, for one star *)

Module Star.

(** Sine of the Galactic latitude. *)
Definition gamma (ra dec : R) : R :=
  sin_dec_pol * sin (radians dec)
  + cos_dec_pol * cos (radians dec) * cos (radians (ra - ra_pol)).

Definition gb (ra dec : R) : R := degrees (asin (gamma ra dec)).

Definition x1 (ra dec : R) : R :=
  cos (radians dec) * sin (radians (ra - ra_pol)).

Definition x2 (ra dec : R) : R :=
  (sin (radians dec) - sin_dec_pol * gamma ra dec) / cos_dec_pol.

(** [(l_north - atan2(x1, x2)) mod 360]. *)
Definition gl (ra dec : R) : R :=
  py_mod (l_north - degrees (arctan2 (x1 ra dec) (x2 ra dec))) 360.

(** Row [r] of the projection: the coefficients of the radial velocity and
    of the two proper motions. *)
Definition T_rv (r : nat) (ra dec : R) : R :=
  TGAL_at r 0 * cos (radians ra) * cos (radians dec)
  + TGAL_at r 1 * sin (radians ra) * cos (radians dec)
  + TGAL_at r 2 * sin (radians dec).

Definition T_pmra (r : nat) (ra dec : R) : R :=
  - TGAL_at r 0 * sin (radians ra) + TGAL_at r 1 * cos (radians ra).

Definition T_pmdec (r : nat) (ra dec : R) : R :=
  - TGAL_at r 0 * cos (radians ra) * sin (radians dec)
  - TGAL_at r 1 * sin (radians ra) * sin (radians dec)
  + TGAL_at r 2 * cos (radians dec).

Definition T1 := T_rv 0.
Definition T2 := T_pmra 0.
Definition T3 := T_pmdec 0.
Definition T4 := T_rv 1.
Definition T5 := T_pmra 1.
Definition T6 := T_pmdec 1.
Definition T7 := T_rv 2.
Definition T8 := T_pmra 2.
Definition T9 := T_pmdec 2.

(** Velocity along axis [r] (0 for U, 1 for V, 2 for W). *)
Definition velocity (r : nat) (ra dec pmra pmdec rv dist : R) : R :=
  T_rv r ra dec * rv
  + T_pmra r ra dec * pmra * (kappa * dist)
  + T_pmdec r ra dec * pmdec * (kappa * dist).

(** Its error bar: four terms combined in quadrature. *)
Definition velocity_error (r : nat) (ra dec pmra pmdec dist : R)
  (pmra_error pmdec_error rv_error dist_error : R) : R :=
  let pm := sqrt ((T_pmra r ra dec * pmra) ^ 2
                  + (T_pmdec r ra dec * pmdec) ^ 2) in
  let pm_error := sqrt ((T_pmra r ra dec * pmra_error) ^ 2
                        + (T_pmdec r ra dec * pmdec_error) ^ 2) in
  sqrt ((T_rv r ra dec * rv_error) ^ 2
        + (pm_error * (kappa * dist)) ^ 2
        + (pm * (kappa * dist_error)) ^ 2
        + (pm_error * (kappa * dist_error)) ^ 2).

End Star.

(** ** Messages *)

Definition broadcast_message : string :=
  "operands could not be broadcast together".

(** The messages of the five checks that open [equatorial_UVW]. *)
Definition UVW_validation_messages : list string :=
  [ "ra, dec, pmra, pmdec, rv and distance must all be numpy arrays of the same size !";
    "pmra_error must be a numpy array of the same size as ra !";
    "pmdec_error must be a numpy array of the same size as ra !";
    "rv_error must be a numpy array of the same size as ra !";
    "dist_error must be a numpy array of the same size as ra !" ]%string.

(** A computation that raises no ValueError but numpy's own. *)
Definition only_broadcast_errors {A : Type} (m : res A) : Prop :=
  forall msg, m = Raise (ValueError msg) -> msg = broadcast_message.

(** ** Shapes that broadcast *)

(** A value that broadcasts against arrays of length [M]: a scalar, an
    array of length [M] or an array of length 1. *)
Definition bsized (M : nat) (v : value) : Prop :=
  match v with
  | Scalar _ => True
  | Array xs => length xs = M \/ length xs = 1%nat
  end.

Definition opt_bsized (M : nat) (e : option value) : Prop :=
  match e with
  | Some v => bsized M v
  | None => True
  end.

(** An expression that evaluates to such a value. *)
Definition fits (M : nat) (m : res value) : Prop :=
  exists v, m = Ok v /\ bsized M v.

(** A call that returns. *)
Definition returns {A : Type} (m : res A) : Prop := exists a, m = Ok a.

(** Element [i] of an optional error array, an absent one being exact. *)
Definition err_item (e : option value) : nat -> R :=
  match e with
  | Some v => item v
  | None => fun _ => 0
  end.

(** An array, not a scalar; an optional one may be absent. *)
Definition is_sequence (v : value) : Prop :=
  match v with
  | Scalar _ => False
  | Array _ => True
  end.

Definition opt_is_sequence (e : option value) : Prop :=
  match e with
  | Some v => is_sequence v
  | None => True
  end.

(** ** Tabulated arrays *)

Lemma tab_length n f : length (tab n f) = n.
Proof. unfold tab. now rewrite length_map, length_seq. Qed.

Lemma nth_tab n f i d : (i < n)%nat -> nth i (tab n f) d = f i.
Proof.
  intros Hi. unfold tab.
  rewrite nth_indep with (d' := f 0%nat) by now rewrite length_map, length_seq.
  rewrite map_nth, seq_nth by assumption. reflexivity.
Qed.

Lemma tab_of_list (xs : list R) :
  xs = tab (length xs) (fun i => nth i xs 0).
Proof.
  apply nth_ext with (d := 0) (d' := 0).
  - now rewrite tab_length.
  - intros i Hi. now rewrite nth_tab.
Qed.

Lemma tab_ext n f g :
  (forall i, (i < n)%nat -> f i = g i) -> tab n f = tab n g.
Proof.
  intros H. unfold tab. apply map_ext_in.
  intros i Hi. apply in_seq in Hi. apply H. lia.
Qed.

Lemma map_tab h n f : map h (tab n f) = tab n (fun i => h (f i)).
Proof. unfold tab. now rewrite map_map. Qed.

Lemma zip_with_map_seq op f g l :
  zip_with op (map f l) (map g l) = map (fun i : nat => op (f i) (g i)) l.
Proof. induction l as [|a l IH]; simpl; [reflexivity | now rewrite IH]. Qed.

Lemma zip_with_tab op n f g :
  zip_with op (tab n f) (tab n g) = tab n (fun i => op (f i) (g i)).
Proof. apply zip_with_map_seq. Qed.

Lemma repeat_tab (c : R) n : repeat c n = tab n (fun _ => c).
Proof.
  apply nth_ext with (d := c) (d' := c).
  - now rewrite repeat_length, tab_length.
  - intros i Hi. rewrite repeat_length in Hi.
    now rewrite nth_repeat, nth_tab.
Qed.

(** ** How the numpy primitives compute on tabulated arrays *)

Lemma binop_tab_tab op n f g :
  np_binop op (Ok (Array (tab n f))) (Ok (Array (tab n g)))
  = Ok (Array (tab n (fun i => op (f i) (g i)))).
Proof.
  unfold np_binop; simpl. rewrite !tab_length, Nat.eqb_refl.
  now rewrite zip_with_tab.
Qed.

Lemma binop_sc_tab op c n g :
  np_binop op (Ok (Scalar c)) (Ok (Array (tab n g)))
  = Ok (Array (tab n (fun i => op c (g i)))).
Proof. unfold np_binop; simpl. now rewrite map_tab. Qed.

Lemma binop_tab_sc op n f c :
  np_binop op (Ok (Array (tab n f))) (Ok (Scalar c))
  = Ok (Array (tab n (fun i => op (f i) c))).
Proof. unfold np_binop; simpl. now rewrite map_tab. Qed.

Lemma binop_tab_one op n f y :
  np_binop op (Ok (Array (tab n f))) (Ok (Array [y]))
  = Ok (Array (tab n (fun i => op (f i) y))).
Proof.
  rewrite <- (map_tab (fun x => op x y)).
  unfold np_binop; cbn [bind broadcast]. rewrite tab_length.
  destruct n as [|[|n]]; reflexivity.
Qed.

Lemma binop_sc_sc op c d :
  np_binop op (Ok (Scalar c)) (Ok (Scalar d)) = Ok (Scalar (op c d)).
Proof. reflexivity. Qed.

Lemma unop_tab h n f :
  np_unop h (Ok (Array (tab n f))) = Ok (Array (tab n (fun i => h (f i)))).
Proof. unfold np_unop; simpl. now rewrite map_tab. Qed.

Lemma unop_sc h c : np_unop h (Ok (Scalar c)) = Ok (Scalar (h c)).
Proof. reflexivity. Qed.

Lemma np_size_tab n f : np_size (Array (tab n f)) = n.
Proof. apply tab_length. Qed.

Lemma np_zeros_tab n : np_zeros n = Array (tab n (fun _ => 0)).
Proof. unfold np_zeros. now rewrite repeat_tab. Qed.

Lemma kappa_loop_spec xs : forall idxs out,
  Forall (fun i => (i < length xs)%nat) idxs ->
  kappa_loop (Array xs) idxs out
  = Ok (out ++ map (fun i => kappa * nth i xs 0) idxs).
Proof.
  induction idxs as [|i rest IH]; intros out Hin; simpl.
  - now rewrite app_nil_r.
  - inversion Hin as [|? ? Hi Hrest]; subst.
    destruct (nth_error xs i) as [x|] eqn:E.
    + simpl. rewrite IH by assumption.
      rewrite <- app_assoc. simpl.
      now rewrite (nth_error_nth _ _ 0 E).
    + apply nth_error_None in E. lia.
Qed.

Lemma kappa_times_tab n f :
  kappa_times (Array (tab n f)) = Ok (tab n (fun i => kappa * f i)).
Proof.
  unfold kappa_times; simpl. rewrite tab_length.
  rewrite kappa_loop_spec.
  - simpl. apply f_equal. apply tab_ext.
    intros i Hi. now rewrite nth_tab.
  - apply Forall_forall. intros i Hi. apply in_seq in Hi.
    rewrite tab_length. lia.
Qed.

Lemma kappa_times_scalar x :
  kappa_times (Scalar x)
  = Raise (TypeError "object of type 'float' has no len()").
Proof. reflexivity. Qed.

Create Rewrite HintDb np.

#[global] Hint Rewrite binop_tab_tab binop_sc_tab binop_tab_sc binop_sc_sc
  unop_tab unop_sc kappa_times_tab kappa_times_scalar np_zeros_tab : np.

(** One statement at a time: evaluate the numpy expression on the right of
    the bind, then substitute its value in the rest of the function. *)
Ltac np_unfold :=
  unfold np_sin, np_cos, np_radians, np_degrees, np_arcsin, np_sqrt,
    np_abs, np_arctan2, np_pow, pure_value, np_asarray.

Ltac np_eval :=
  repeat (np_unfold; autorewrite with np; cbn [bind is_None andb]).


(** ** Shapes *)

Lemma has_len_tab n v : has_len n v -> v = Array (tab n (item v)).
Proof.
  destruct v as [x|xs]; simpl; [contradiction|].
  intros <-. apply f_equal, tab_of_list.
Qed.

Lemma opt_has_len_tab n e :
  opt_has_len n e -> e = tab_opt n (option_map item e).
Proof.
  destruct e as [v|]; simpl; [|reflexivity].
  intros H. apply f_equal. now apply has_len_tab.
Qed.

Lemma supplied_mismatch_tab n o : supplied_mismatch (tab_opt n o) n = false.
Proof.
  destruct o as [f|]; simpl; [|reflexivity].
  now rewrite tab_length, Nat.eqb_refl.
Qed.

Lemma zeros_if_None_tab n o :
  zeros_if_None (tab_opt n o) n = Array (tab n (or_zero o)).
Proof. destruct o as [f|]; simpl; [reflexivity | apply np_zeros_tab]. Qed.

Lemma item_tab n f i : (i < n)%nat -> item (Array (tab n f)) i = f i.
Proof. intros Hi. simpl. now apply nth_tab. Qed.

Lemma has_len_tab_intro n f : has_len n (Array (tab n f)).
Proof. apply tab_length. Qed.

(** ** The remainder *)

Lemma py_mod_range x : 0 <= py_mod x 360 < 360.
Proof.
  unfold py_mod. pose proof (Zfloor_bound (x / 360)) as [Hlo Hhi].
  assert (E : x = x / 360 * 360) by (field; lra).
  split; nra.
Qed.

Lemma py_mod_period x : py_mod (x + 360) 360 = py_mod x 360.
Proof.
  unfold py_mod.
  replace ((x + 360) / 360) with (x / 360 + IZR 1) by (field; lra).
  rewrite Zfloor_addz, plus_IZR. lra.
Qed.

(** ** equatorial_galactic, evaluated *)

Lemma equatorial_galactic_tab n ra dec :
  equatorial_galactic (Array (tab n ra)) (Array (tab n dec))
  = Ok (Array (tab n (fun i => Star.gl (ra i) (dec i))),
        Array (tab n (fun i => Star.gb (ra i) (dec i)))).
Proof.
  unfold equatorial_galactic.
  rewrite !np_size_tab, Nat.eqb_refl. cbn [negb].
  np_eval. do 3 f_equal.
  apply tab_ext. intros i _. apply py_mod_period.
Qed.

Lemma equatorial_galactic_scalar ra dec :
  equatorial_galactic (Scalar ra) (Scalar dec)
  = Ok (Scalar (Star.gl ra dec), Scalar (Star.gb ra dec)).
Proof.
  unfold equatorial_galactic. cbn [np_size Nat.eqb negb].
  np_eval. do 3 f_equal. apply py_mod_period.
Qed.

Lemma equatorial_galactic_scalar_tab n ra dec :
  n = 1%nat ->
  equatorial_galactic (Scalar ra) (Array (tab n dec))
  = Ok (Array (tab n (fun i => Star.gl ra (dec i))),
        Array (tab n (fun i => Star.gb ra (dec i)))).
Proof.
  intros Hn. unfold equatorial_galactic.
  rewrite np_size_tab. cbn [np_size]. rewrite Hn at 1. cbn [Nat.eqb negb].
  np_eval. do 3 f_equal.
  apply tab_ext. intros i _. apply py_mod_period.
Qed.

Lemma equatorial_galactic_tab_scalar n ra dec :
  n = 1%nat ->
  equatorial_galactic (Array (tab n ra)) (Scalar dec)
  = Ok (Array (tab n (fun i => Star.gl (ra i) dec)),
        Array (tab n (fun i => Star.gb (ra i) dec))).
Proof.
  intros Hn. unfold equatorial_galactic.
  rewrite np_size_tab. cbn [np_size]. rewrite Hn at 1. cbn [Nat.eqb negb].
  np_eval. do 3 f_equal.
  apply tab_ext. intros i _. apply py_mod_period.
Qed.

(** Whatever the shapes of [ra] and [dec], as long as their sizes agree. *)
Lemma equatorial_galactic_items ra dec :
  np_size dec = np_size ra ->
  equatorial_galactic ra dec
  = Ok (shaped (is_array ra || is_array dec) (np_size ra)
          (fun i => Star.gl (item ra i) (item dec i)),
        shaped (is_array ra || is_array dec) (np_size ra)
          (fun i => Star.gb (item ra i) (item dec i))).
Proof.
  destruct ra as [x|xs], dec as [y|ys]; cbn [np_size is_array orb shaped];
    intros Hsz.
  - apply equatorial_galactic_scalar.
  - rewrite (tab_of_list ys) at 1.
    rewrite equatorial_galactic_scalar_tab by assumption.
    rewrite Hsz. reflexivity.
  - rewrite (tab_of_list xs) at 1.
    rewrite equatorial_galactic_tab_scalar by (symmetry; assumption).
    reflexivity.
  - rewrite (tab_of_list xs) at 1. rewrite (tab_of_list ys) at 1.
    rewrite Hsz. apply equatorial_galactic_tab.
Qed.

(** ** equatorial_XYZ and equatorial_UVW on arrays of a common length *)

Lemma equatorial_XYZ_tab n ra dec dist (dist_error : option (nat -> R)) :
  equatorial_XYZ (Array (tab n ra)) (Array (tab n dec)) (Array (tab n dist))
    (tab_opt n dist_error)
  = Ok ([ Array (tab n (fun i =>
            cos (radians (Star.gb (ra i) (dec i)))
            * cos (radians (Star.gl (ra i) (dec i))) * dist i));
          Array (tab n (fun i =>
            cos (radians (Star.gb (ra i) (dec i)))
            * sin (radians (Star.gl (ra i) (dec i))) * dist i));
          Array (tab n (fun i =>
            sin (radians (Star.gb (ra i) (dec i))) * dist i)) ]
        ++ match dist_error with
           | None => []
           | Some e =>
               [ Array (tab n (fun i => Rabs (
                   cos (radians (Star.gb (ra i) (dec i)))
                   * cos (radians (Star.gl (ra i) (dec i))) * e i)));
                 Array (tab n (fun i => Rabs (
                   cos (radians (Star.gb (ra i) (dec i)))
                   * sin (radians (Star.gl (ra i) (dec i))) * e i)));
                 Array (tab n (fun i => Rabs (
                   sin (radians (Star.gb (ra i) (dec i))) * e i))) ]
           end).
Proof.
  unfold equatorial_XYZ.
  rewrite !np_size_tab, Nat.eqb_refl, supplied_mismatch_tab.
  cbn [negb orb]. rewrite equatorial_galactic_tab. cbn [bind].
  np_eval.
  destruct dist_error as [e|]; cbn [tab_opt option_map]; np_eval;
    reflexivity.
Qed.

Lemma equatorial_UVW_tab n ra dec pmra pmdec rv dist
  (pmra_error pmdec_error rv_error dist_error : option (nat -> R)) :
  equatorial_UVW (Array (tab n ra)) (Array (tab n dec))
    (Array (tab n pmra)) (Array (tab n pmdec)) (Array (tab n rv))
    (Array (tab n dist))
    (tab_opt n pmra_error) (tab_opt n pmdec_error) (tab_opt n rv_error)
    (tab_opt n dist_error)
  = Ok (map (fun r => Array (tab n (fun i =>
               Star.velocity r (ra i) (dec i) (pmra i) (pmdec i) (rv i)
                 (dist i))))
          [0; 1; 2]%nat
        ++ if all_None (tab_opt n pmra_error) (tab_opt n pmdec_error)
                (tab_opt n rv_error) (tab_opt n dist_error)
           then []
           else
             map (fun r => Array (tab n (fun i =>
                    Star.velocity_error r (ra i) (dec i) (pmra i) (pmdec i)
                      (dist i) (or_zero pmra_error i) (or_zero pmdec_error i)
                      (or_zero rv_error i) (or_zero dist_error i))))
               [0; 1; 2]%nat).
Proof.
  unfold equatorial_UVW.
  rewrite !np_size_tab, Nat.eqb_refl, !supplied_mismatch_tab.
  cbn [negb orb]. np_eval.
  unfold all_None.
  destruct (is_None (tab_opt n pmra_error) && is_None (tab_opt n pmdec_error)
            && is_None (tab_opt n rv_error) && is_None (tab_opt n dist_error)).
  - reflexivity.
  - rewrite !zeros_if_None_tab. np_eval. reflexivity.
Qed.

Lemma opt_zero_tab n e :
  opt_zero n e ->
  exists o, e = tab_opt n o /\ forall i, (i < n)%nat -> or_zero o i = 0.
Proof.
  destruct e as [v|]; simpl.
  - intros [Hlen Hz]. exists (Some (item v)). split.
    + simpl. apply f_equal. now apply has_len_tab.
    + exact Hz.
  - intros _. exists None. now split.
Qed.

Lemma all_None_rv_supplied n a b f d :
  all_None a b (tab_opt n (Some f)) d = false.
Proof. unfold all_None. destruct a, b; reflexivity. Qed.

(** ** The error bar of one star *)

Lemma velocity_error_rv_only r ra dec pmra pmdec dist rv_error :
  Star.velocity_error r ra dec pmra pmdec dist 0 0 rv_error 0
  = Rabs (Star.T_rv r ra dec * rv_error).
Proof.
  unfold Star.velocity_error. cbv zeta.
  replace ((Star.T_pmra r ra dec * 0) ^ 2 + (Star.T_pmdec r ra dec * 0) ^ 2)
    with 0 by ring.
  rewrite sqrt_0.
  match goal with
  | |- sqrt ?e = _ =>
      replace e with (Rsqr (Star.T_rv r ra dec * rv_error))
        by (unfold Rsqr; ring)
  end.
  apply sqrt_Rsqr_abs.
Qed.

Lemma velocity_error_zero r ra dec pmra pmdec dist :
  Star.velocity_error r ra dec pmra pmdec dist 0 0 0 0 = 0.
Proof.
  rewrite velocity_error_rv_only, Rmult_0_r. apply Rabs_R0.
Qed.

Lemma velocity_error_nonneg r ra dec pmra pmdec dist e1 e2 e3 e4 :
  0 <= Star.velocity_error r ra dec pmra pmdec dist e1 e2 e3 e4.
Proof. unfold Star.velocity_error. cbv zeta. apply sqrt_pos. Qed.

Lemma T1_origin : Star.T1 0 0 = -0.0548755604.
Proof.
  unfold Star.T1, Star.T_rv, radians, TGAL_at. cbn [nth TGAL].
  rewrite Rmult_0_l, cos_0, sin_0. lra.
Qed.

(** Replace every array of a known length by its tabulated form. *)
Ltac to_tab :=
  repeat match goal with
  | H : has_len ?n ?v |- _ =>
      is_var v;
      let E := fresh "E" in
      let f := fresh "f" in
      pose proof (has_len_tab _ _ H) as E;
      set (f := item v) in *; clearbody f; subst v; clear H
  | H : opt_has_len ?n ?e |- _ =>
      is_var e;
      let E := fresh "E" in
      let o := fresh "o" in
      pose proof (opt_has_len_tab _ _ H) as E;
      set (o := option_map item e) in *; clearbody o; subst e; clear H
  end.

(** * The properties of the specification *)

(** C1. On arrays [ra], [dec], [pmra], [pmdec], [rv], [dist] of a common
    length [N], [equatorial_UVW] returns arrays [U], [V], [W] of length [N]
    with, for each star,
    [U = T1*rv + T2*pmra*(kappa*dist) + T3*pmdec*(kappa*dist)],
    [V] likewise from [T4, T5, T6] and [W] from [T7, T8, T9], the nine
    coefficients being those built from [TGAL] and the sines and cosines of
    [ra] and [dec]. *)
Theorem equatorial_UVW_velocity (N : nat)
  (ra dec pmra pmdec rv dist : value)
  (pmra_error pmdec_error rv_error dist_error : option value) :
  has_len N ra -> has_len N dec -> has_len N pmra -> has_len N pmdec ->
  has_len N rv -> has_len N dist ->
  opt_has_len N pmra_error -> opt_has_len N pmdec_error ->
  opt_has_len N rv_error -> opt_has_len N dist_error ->
  exists U V W errors,
    equatorial_UVW ra dec pmra pmdec rv dist
      pmra_error pmdec_error rv_error dist_error
    = Ok (U :: V :: W :: errors)
    /\ has_len N U /\ has_len N V /\ has_len N W
    /\ forall i, (i < N)%nat ->
         item U i
         = Star.T1 (item ra i) (item dec i) * item rv i
           + Star.T2 (item ra i) (item dec i) * item pmra i
             * (kappa * item dist i)
           + Star.T3 (item ra i) (item dec i) * item pmdec i
             * (kappa * item dist i)
         /\ item V i
            = Star.T4 (item ra i) (item dec i) * item rv i
              + Star.T5 (item ra i) (item dec i) * item pmra i
                * (kappa * item dist i)
              + Star.T6 (item ra i) (item dec i) * item pmdec i
                * (kappa * item dist i)
         /\ item W i
            = Star.T7 (item ra i) (item dec i) * item rv i
              + Star.T8 (item ra i) (item dec i) * item pmra i
                * (kappa * item dist i)
              + Star.T9 (item ra i) (item dec i) * item pmdec i
                * (kappa * item dist i).
Proof.
  intros. to_tab. rewrite equatorial_UVW_tab. cbn [map app].
  do 4 eexists. split; [reflexivity|].
  repeat (split; [apply has_len_tab_intro|]).
  intros i Hi. rewrite !item_tab by assumption.
  repeat split; reflexivity.
Qed.

Lemma equatorial_UVW_velocity_witness :
  exists U V W errors,
    equatorial_UVW (Array [10; 200]) (Array [-5; 40]) (Array [3; -2])
      (Array [1; 7]) (Array [-20; 15]) (Array [100; 250])
      None (Some (Array [0.5; 0.25])) None None
    = Ok (U :: V :: W :: errors)
    /\ has_len 2 U /\ has_len 2 V /\ has_len 2 W.
Proof.
  destruct (equatorial_UVW_velocity 2
              (Array [10; 200]) (Array [-5; 40]) (Array [3; -2])
              (Array [1; 7]) (Array [-20; 15]) (Array [100; 250])
              None (Some (Array [0.5; 0.25])) None None)
    as (U & V & W & errors & HU & HV & HW & HX & _);
    try reflexivity; try exact I.
  exists U, V, W, errors. repeat split; assumption.
Defined.

(** C2. On arrays [ra], [dec], [dist] of a common length [N],
    [equatorial_XYZ] returns [X = cos(gb)*cos(gl)*dist],
    [Y = cos(gb)*sin(gl)*dist], [Z = sin(gb)*dist] star by star, [(gl, gb)]
    being the result of [equatorial_galactic ra dec]; these three arrays
    are the ones returned without [dist_error]. *)
Theorem equatorial_XYZ_position (N : nat) (ra dec dist : value)
  (dist_error : option value) :
  has_len N ra -> has_len N dec -> has_len N dist ->
  opt_has_len N dist_error ->
  exists gl gb X Y Z errors,
    equatorial_galactic ra dec = Ok (gl, gb)
    /\ equatorial_XYZ ra dec dist dist_error = Ok (X :: Y :: Z :: errors)
    /\ equatorial_XYZ ra dec dist None = Ok [X; Y; Z]
    /\ has_len N X /\ has_len N Y /\ has_len N Z
    /\ forall i, (i < N)%nat ->
         item X i
         = cos (radians (item gb i)) * cos (radians (item gl i))
           * item dist i
         /\ item Y i
            = cos (radians (item gb i)) * sin (radians (item gl i))
              * item dist i
         /\ item Z i = sin (radians (item gb i)) * item dist i.
Proof.
  intros. to_tab.
  change (@None value) with (tab_opt N None).
  rewrite equatorial_galactic_tab, !equatorial_XYZ_tab. cbn [app].
  do 6 eexists. split; [reflexivity|]. split; [reflexivity|].
  split; [reflexivity|].
  repeat (split; [apply has_len_tab_intro|]).
  intros i Hi. rewrite !item_tab by assumption.
  repeat split; reflexivity.
Qed.

Lemma equatorial_XYZ_position_witness :
  exists gl gb X Y Z errors,
    equatorial_galactic (Array [10; 200]) (Array [-5; 40]) = Ok (gl, gb)
    /\ equatorial_XYZ (Array [10; 200]) (Array [-5; 40]) (Array [100; 250])
         (Some (Array [2; 3]))
       = Ok (X :: Y :: Z :: errors)
    /\ equatorial_XYZ (Array [10; 200]) (Array [-5; 40]) (Array [100; 250])
         None
       = Ok [X; Y; Z].
Proof.
  destruct (equatorial_XYZ_position 2
              (Array [10; 200]) (Array [-5; 40]) (Array [100; 250])
              (Some (Array [2; 3])))
    as (gl & gb & X & Y & Z & errors & Hg & H6 & H3 & _);
    try reflexivity.
  exists gl, gb, X, Y, Z, errors. repeat split; assumption.
Defined.

(** C3. Whenever [equatorial_galactic] returns, each element of the
    longitude [gl] is [(l_north - atan2(x1, x2)) mod 360], the arctangent
    taken in degrees, and lies in [0, 360). *)
Theorem equatorial_galactic_longitude_range (ra dec gl gb : value) :
  equatorial_galactic ra dec = Ok (gl, gb) ->
  forall i, (i < np_size gl)%nat ->
    item gl i
    = py_mod (l_north
              - degrees (arctan2 (Star.x1 (item ra i) (item dec i))
                                 (Star.x2 (item ra i) (item dec i))))
        360
    /\ 0 <= item gl i < 360.
Proof.
  intros Hrun i Hi.
  assert (Hsz : np_size dec = np_size ra).
  { unfold equatorial_galactic in Hrun.
    destruct (np_size dec =? np_size ra)%nat eqn:E; [|discriminate Hrun].
    now apply Nat.eqb_eq. }
  rewrite (equatorial_galactic_items _ _ Hsz) in Hrun.
  injection Hrun as <- <-.
  destruct (is_array ra || is_array dec); cbn [shaped np_size] in *.
  - rewrite tab_length in Hi. rewrite item_tab by assumption.
    split; [reflexivity | apply py_mod_range].
  - assert (i = 0%nat) as -> by lia. cbn [item].
    split; [reflexivity | apply py_mod_range].
Qed.

Lemma equatorial_galactic_longitude_range_witness :
  exists gl gb,
    equatorial_galactic (Array [10; 200]) (Array [-5; 40]) = Ok (gl, gb)
    /\ 0 <= item gl 1 < 360.
Proof.
  destruct (equatorial_galactic (Array [10; 200]) (Array [-5; 40]))
    as [[gl gb]|e] eqn:E; [|discriminate E].
  exists gl, gb. split; [reflexivity|].
  apply (equatorial_galactic_longitude_range
           (Array [10; 200]) (Array [-5; 40]) gl gb E 1%nat).
  injection E as <- _. simpl. lia.
Defined.

(** C8. [equatorial_galactic] raises its ValueError exactly when
    [size(dec) <> size(ra)]: with sizes that differ the result is that
    error, whatever the arithmetic would have done on these operands, and
    with sizes that agree the function returns and raises nothing. *)
Theorem equatorial_galactic_shape_check (ra dec : value) :
  (np_size dec <> np_size ra ->
   equatorial_galactic ra dec
   = Raise (ValueError "The dimensions ra and dec do not agree. They must all be numpy arrays of the same length."))
  /\ (np_size dec = np_size ra ->
      exists gl gb, equatorial_galactic ra dec = Ok (gl, gb))
  /\ (forall e, equatorial_galactic ra dec = Raise e ->
      np_size dec <> np_size ra).
Proof.
  split; [|split].
  - intros Hne. unfold equatorial_galactic.
    apply Nat.eqb_neq in Hne. rewrite Hne. reflexivity.
  - intros Heq. rewrite (equatorial_galactic_items _ _ Heq).
    eauto.
  - intros e Hraise Heq.
    rewrite (equatorial_galactic_items _ _ Heq) in Hraise.
    discriminate Hraise.
Qed.

Lemma equatorial_galactic_shape_check_witness :
  equatorial_galactic (Array [10; 200]) (Array [-5; 40; 60])
  = Raise (ValueError "The dimensions ra and dec do not agree. They must all be numpy arrays of the same length.")
  /\ exists gl gb,
       equatorial_galactic (Array [10; 200]) (Array [-5; 40]) = Ok (gl, gb).
Proof.
  split.
  - apply (proj1 (equatorial_galactic_shape_check
                    (Array [10; 200]) (Array [-5; 40; 60]))).
    simpl. lia.
  - apply (proj1 (proj2 (equatorial_galactic_shape_check
                           (Array [10; 200]) (Array [-5; 40])))).
    reflexivity.
Defined.

(** C6. With the four error arrays supplied as [N] zeros, the three error
    bars of every star are zero. *)
Theorem equatorial_UVW_zero_errors (N : nat)
  (ra dec pmra pmdec rv dist : value)
  (pmra_error pmdec_error rv_error dist_error : value) :
  has_len N ra -> has_len N dec -> has_len N pmra -> has_len N pmdec ->
  has_len N rv -> has_len N dist ->
  zeros N pmra_error -> zeros N pmdec_error ->
  zeros N rv_error -> zeros N dist_error ->
  exists U V W EU EV EW,
    equatorial_UVW ra dec pmra pmdec rv dist (Some pmra_error)
      (Some pmdec_error) (Some rv_error) (Some dist_error)
    = Ok [U; V; W; EU; EV; EW]
    /\ has_len N EU /\ has_len N EV /\ has_len N EW
    /\ forall i, (i < N)%nat ->
         item EU i = 0 /\ item EV i = 0 /\ item EW i = 0.
Proof.
  intros Hra Hdec Hpmra Hpmdec Hrv Hdist [H1 Z1] [H2 Z2] [H3 Z3] [H4 Z4].
  to_tab.
  repeat match goal with
  | |- context [Some (Array (tab N ?f))] =>
      change (Some (Array (tab N f))) with (tab_opt N (Some f))
  end.
  rewrite equatorial_UVW_tab.
  cbn [map app all_None tab_opt option_map is_None andb or_zero].
  do 6 eexists. split; [reflexivity|].
  repeat (split; [apply has_len_tab_intro|]).
  intros i Hi. rewrite !item_tab by assumption.
  rewrite Z1, Z2, Z3, Z4 by assumption.
  repeat split; apply velocity_error_zero.
Qed.

Lemma equatorial_UVW_zero_errors_witness :
  exists U V W EU EV EW,
    equatorial_UVW (Array [10; 200]) (Array [-5; 40]) (Array [3; -2])
      (Array [1; 7]) (Array [-20; 15]) (Array [100; 250])
      (Some (Array [0; 0])) (Some (Array [0; 0])) (Some (Array [0; 0]))
      (Some (Array [0; 0]))
    = Ok [U; V; W; EU; EV; EW]
    /\ item EU 1 = 0 /\ item EV 1 = 0 /\ item EW 1 = 0.
Proof.
  assert (Z : zeros 2 (Array [0; 0])).
  { split; [reflexivity|].
    intros [|[|i]] Hi; simpl; try reflexivity; lia. }
  destruct (equatorial_UVW_zero_errors 2
              (Array [10; 200]) (Array [-5; 40]) (Array [3; -2])
              (Array [1; 7]) (Array [-20; 15]) (Array [100; 250])
              (Array [0; 0]) (Array [0; 0]) (Array [0; 0]) (Array [0; 0]))
    as (U & V & W & EU & EV & EW & Hrun & _ & _ & _ & Hz);
    try reflexivity; try exact Z.
  exists U, V, W, EU, EV, EW. split; [exact Hrun|].
  apply Hz. lia.
Defined.

(** C7, as the code has it.  With [rv_error] supplied and the three other
    error arrays zero or absent, the error bars are the magnitudes of the
    radial terms: [(EU, EV, EW) = (|T1*rv_error|, |T4*rv_error|,
    |T7*rv_error|)] star by star, for any [(ra, dec)]. *)
Theorem equatorial_UVW_rv_error_only (N : nat)
  (ra dec pmra pmdec rv dist rv_error : value)
  (pmra_error pmdec_error dist_error : option value) :
  has_len N ra -> has_len N dec -> has_len N pmra -> has_len N pmdec ->
  has_len N rv -> has_len N dist -> has_len N rv_error ->
  opt_zero N pmra_error -> opt_zero N pmdec_error ->
  opt_zero N dist_error ->
  exists U V W EU EV EW,
    equatorial_UVW ra dec pmra pmdec rv dist pmra_error pmdec_error
      (Some rv_error) dist_error
    = Ok [U; V; W; EU; EV; EW]
    /\ has_len N EU /\ has_len N EV /\ has_len N EW
    /\ forall i, (i < N)%nat ->
         item EU i = Rabs (Star.T1 (item ra i) (item dec i) * item rv_error i)
         /\ item EV i
            = Rabs (Star.T4 (item ra i) (item dec i) * item rv_error i)
         /\ item EW i
            = Rabs (Star.T7 (item ra i) (item dec i) * item rv_error i).
Proof.
  intros Hra Hdec Hpmra Hpmdec Hrv Hdist Hre Z1 Z2 Z4.
  apply opt_zero_tab in Z1 as (o1 & -> & Z1).
  apply opt_zero_tab in Z2 as (o2 & -> & Z2).
  apply opt_zero_tab in Z4 as (o4 & -> & Z4).
  to_tab.
  match goal with
  | |- context [Some (Array (tab N ?f))] =>
      change (Some (Array (tab N f))) with (tab_opt N (Some f))
  end.
  rewrite equatorial_UVW_tab, all_None_rv_supplied.
  cbn [map app or_zero].
  do 6 eexists. split; [reflexivity|].
  repeat (split; [apply has_len_tab_intro|]).
  intros i Hi. rewrite !item_tab by assumption.
  rewrite Z1, Z2, Z4 by assumption.
  repeat split; apply velocity_error_rv_only.
Qed.

Lemma equatorial_UVW_rv_error_only_witness :
  exists U V W EU EV EW,
    equatorial_UVW (Array [10; 200]) (Array [-5; 40]) (Array [3; -2])
      (Array [1; 7]) (Array [-20; 15]) (Array [100; 250])
      None (Some (Array [0; 0])) (Some (Array [0.5; 2])) None
    = Ok [U; V; W; EU; EV; EW]
    /\ item EU 1 = Rabs (Star.T1 200 40 * 2).
Proof.
  assert (Z : zeros 2 (Array [0; 0])).
  { split; [reflexivity|].
    intros [|[|i]] Hi; simpl; try reflexivity; lia. }
  destruct (equatorial_UVW_rv_error_only 2
              (Array [10; 200]) (Array [-5; 40]) (Array [3; -2])
              (Array [1; 7]) (Array [-20; 15]) (Array [100; 250])
              (Array [0.5; 2]) None (Some (Array [0; 0])) None)
    as (U & V & W & EU & EV & EW & Hrun & _ & _ & _ & Hz);
    try reflexivity; try exact I; try exact Z.
  exists U, V, W, EU, EV, EW. split; [exact Hrun|].
  apply (Hz 1%nat). lia.
Defined.

(** C7, as stated, fails: at [ra = dec = 0] the coefficient [T1] is
    [TGAL[0,0] < 0], so that with [rv_error = 1] the signed radial term
    [T1*rv_error] is negative, while [EU] is a square root. *)
Lemma equatorial_UVW_rv_error_only_counterexample :
  ~ (exists U V W EU EV EW,
       equatorial_UVW (Array [0]) (Array [0]) (Array [0]) (Array [0])
         (Array [0]) (Array [1]) None None (Some (Array [1])) None
       = Ok [U; V; W; EU; EV; EW]
       /\ item EU 0 = Star.T1 0 0 * 1
       /\ item EV 0 = Star.T4 0 0 * 1
       /\ item EW 0 = Star.T7 0 0 * 1).
Proof.
  intros (U & V & W & EU & EV & EW & Hrun & HU & _).
  change (Array [0]) with (Array (tab 1 (fun _ => 0))) in Hrun.
  change (Array [1]) with (Array (tab 1 (fun _ => 1))) in Hrun.
  change (Some (Array (tab 1 (fun _ => 1))))
    with (tab_opt 1 (Some (fun _ : nat => 1))) in Hrun.
  change (@None value) with (tab_opt 1 None) in Hrun.
  rewrite equatorial_UVW_tab in Hrun.
  cbn [map app all_None tab_opt option_map is_None andb] in Hrun.
  injection Hrun as _ _ _ <- _ _.
  rewrite item_tab in HU by lia. cbn [or_zero] in HU.
  pose proof (velocity_error_nonneg 0 0 0 0 0 1 0 0 1 0) as Hpos.
  rewrite HU, T1_origin in Hpos. lra.
Qed.

(** C5, as the code has it.  With [dist_error] supplied, [equatorial_XYZ]
    returns six arrays, the last three being
    [EX = |cos(gb)*cos(gl)*dist_error|], [EY = |cos(gb)*sin(gl)*dist_error|],
    [EZ = |sin(gb)*dist_error|]; wherever [dist_error >= 0] these are
    [|cos(gb)*cos(gl)|*dist_error], [|cos(gb)*sin(gl)|*dist_error] and
    [|sin(gb)|*dist_error].  Without [dist_error] it returns the first
    three arrays alone. *)
Theorem equatorial_XYZ_errors (N : nat) (ra dec dist dist_error : value) :
  has_len N ra -> has_len N dec -> has_len N dist ->
  has_len N dist_error ->
  exists gl gb X Y Z EX EY EZ,
    equatorial_galactic ra dec = Ok (gl, gb)
    /\ equatorial_XYZ ra dec dist (Some dist_error)
       = Ok [X; Y; Z; EX; EY; EZ]
    /\ equatorial_XYZ ra dec dist None = Ok [X; Y; Z]
    /\ has_len N EX /\ has_len N EY /\ has_len N EZ
    /\ forall i, (i < N)%nat ->
         let cb := cos (radians (item gb i)) in
         let sb := sin (radians (item gb i)) in
         let cl := cos (radians (item gl i)) in
         let sl := sin (radians (item gl i)) in
         (item EX i = Rabs (cb * cl * item dist_error i)
          /\ item EY i = Rabs (cb * sl * item dist_error i)
          /\ item EZ i = Rabs (sb * item dist_error i))
         /\ (0 <= item dist_error i ->
             item EX i = Rabs (cb * cl) * item dist_error i
             /\ item EY i = Rabs (cb * sl) * item dist_error i
             /\ item EZ i = Rabs sb * item dist_error i).
Proof.
  intros. to_tab.
  change (@None value) with (tab_opt N None).
  match goal with
  | |- context [Some (Array (tab N ?f))] =>
      change (Some (Array (tab N f))) with (tab_opt N (Some f))
  end.
  rewrite equatorial_galactic_tab, !equatorial_XYZ_tab. cbn [app].
  do 8 eexists. split; [reflexivity|]. split; [reflexivity|].
  split; [reflexivity|].
  repeat (split; [apply has_len_tab_intro|]).
  intros i Hi. rewrite !item_tab by assumption. cbv zeta.
  split; [repeat split; reflexivity|].
  intros Hpos.
  repeat split; rewrite Rabs_mult, (Rabs_pos_eq _ Hpos); reflexivity.
Qed.

Lemma equatorial_XYZ_errors_witness :
  exists gl gb X Y Z EX EY EZ,
    equatorial_galactic (Array [10; 200]) (Array [-5; 40]) = Ok (gl, gb)
    /\ equatorial_XYZ (Array [10; 200]) (Array [-5; 40]) (Array [100; 250])
         (Some (Array [2; 3]))
       = Ok [X; Y; Z; EX; EY; EZ]
    /\ item EZ 1 = Rabs (sin (radians (item gb 1))) * 3.
Proof.
  destruct (equatorial_XYZ_errors 2
              (Array [10; 200]) (Array [-5; 40]) (Array [100; 250])
              (Array [2; 3]))
    as (gl & gb & X & Y & Z & EX & EY & EZ & Hg & H6 & _ & _ & _ & _ & He);
    try reflexivity.
  exists gl, gb, X, Y, Z, EX, EY, EZ.
  split; [exact Hg|]. split; [exact H6|].
  destruct (He 1%nat) as [_ Hnn]; [lia|].
  apply Hnn. simpl. lra.
Defined.

(** C5, as stated, fails on a negative [dist_error]: the absolute value
    is taken of the product, so the error bars stay non-negative, and
    they cannot be [|cos(gb)*cos(gl)|*dist_error] and so on, since the
    three direction cosines do not vanish together. *)
Lemma equatorial_XYZ_errors_counterexample :
  ~ (exists gl gb X Y Z EX EY EZ,
       equatorial_galactic (Array [0]) (Array [0]) = Ok (gl, gb)
       /\ equatorial_XYZ (Array [0]) (Array [0]) (Array [1])
            (Some (Array [-1]))
          = Ok [X; Y; Z; EX; EY; EZ]
       /\ item EX 0
          = Rabs (cos (radians (item gb 0)) * cos (radians (item gl 0)))
            * -1
       /\ item EY 0
          = Rabs (cos (radians (item gb 0)) * sin (radians (item gl 0)))
            * -1
       /\ item EZ 0 = Rabs (sin (radians (item gb 0))) * -1).
Proof.
  intros (gl & gb & X & Y & Z & EX & EY & EZ & Hg & Hrun & HX & HY & HZ).
  change (Array [0]) with (Array (tab 1 (fun _ => 0))) in Hg, Hrun.
  change (Array [1]) with (Array (tab 1 (fun _ => 1))) in Hrun.
  change (Some (Array [-1]))
    with (tab_opt 1 (Some (fun _ : nat => -1))) in Hrun.
  rewrite equatorial_galactic_tab in Hg.
  rewrite equatorial_XYZ_tab in Hrun. cbn [app] in Hrun.
  injection Hg as <- <-. injection Hrun as _ _ _ <- <- <-.
  rewrite !item_tab in HX, HY, HZ by lia.
  set (b := radians (Star.gb 0 0)) in *.
  set (l := radians (Star.gl 0 0)) in *.
  pose proof (sin2_cos2 b) as Hb. pose proof (sin2_cos2 l) as Hl.
  unfold Rsqr in Hb, Hl.
  assert (E1 : cos b * cos l = 0).
  { revert HX. unfold Rabs. repeat destruct Rcase_abs; lra. }
  assert (E2 : cos b * sin l = 0).
  { revert HY. unfold Rabs. repeat destruct Rcase_abs; lra. }
  assert (E3 : sin b = 0).
  { revert HZ. unfold Rabs. repeat destruct Rcase_abs; lra. }
  rewrite E3 in Hb.
  assert (Hc : cos b <> 0) by (intros Hc; rewrite Hc in Hb; lra).
  apply Rmult_integral in E1 as [E1|E1]; [contradiction|].
  apply Rmult_integral in E2 as [E2|E2]; [contradiction|].
  rewrite E1, E2 in Hl. lra.
Qed.

(** ** The number of arrays [equatorial_UVW] returns *)

Lemma supplied_mismatch_zeros e n :
  supplied_mismatch (Some (zeros_if_None e n)) n = supplied_mismatch e n.
Proof.
  destruct e as [v|]; simpl; [reflexivity|].
  now rewrite repeat_length, Nat.eqb_refl.
Qed.

(** From [x <- m ;; k = Ok r]: [m] returned. *)
Ltac bind_inv H :=
  repeat match type of H with
  | bind ?m _ = Ok _ =>
      let a := fresh "a" in
      let E := fresh "E" in
      destruct m as [a|] eqn:E; cbn [bind] in H; [clear E | discriminate H]
  | (if ?c then _ else _) = Ok _ =>
      destruct c; [discriminate H|]
  end.

Lemma equatorial_UVW_length ra dec pmra pmdec rv dist
  pmra_error pmdec_error rv_error dist_error r :
  equatorial_UVW ra dec pmra pmdec rv dist
    pmra_error pmdec_error rv_error dist_error = Ok r ->
  length r
  = if all_None pmra_error pmdec_error rv_error dist_error
    then 3%nat else 6%nat.
Proof.
  unfold equatorial_UVW, all_None. cbv zeta. intros H.
  bind_inv H.
  destruct (is_None pmra_error && is_None pmdec_error && is_None rv_error
            && is_None dist_error).
  - now injection H as <-.
  - bind_inv H. now injection H as <-.
Qed.

(** C4. [equatorial_UVW] returns three arrays exactly when none of the four
    error arrays is supplied and six as soon as one is; in that case a call
    is the call in which every absent error array is replaced by
    [np.zeros(N)].  On arrays of a common length the function does
    return. *)
Theorem equatorial_UVW_result_arity (ra dec pmra pmdec rv dist : value)
  (pmra_error pmdec_error rv_error dist_error : option value) :
  (forall r,
     equatorial_UVW ra dec pmra pmdec rv dist
       pmra_error pmdec_error rv_error dist_error = Ok r ->
     (length r = 3%nat
      <-> pmra_error = None /\ pmdec_error = None /\ rv_error = None
          /\ dist_error = None)
     /\ (length r = 6%nat
         <-> ~ (pmra_error = None /\ pmdec_error = None /\ rv_error = None
                /\ dist_error = None)))
  /\ (~ (pmra_error = None /\ pmdec_error = None /\ rv_error = None
         /\ dist_error = None) ->
      equatorial_UVW ra dec pmra pmdec rv dist
        pmra_error pmdec_error rv_error dist_error
      = equatorial_UVW ra dec pmra pmdec rv dist
          (Some (zeros_if_None pmra_error (np_size ra)))
          (Some (zeros_if_None pmdec_error (np_size ra)))
          (Some (zeros_if_None rv_error (np_size ra)))
          (Some (zeros_if_None dist_error (np_size ra))))
  /\ (forall N,
        has_len N ra -> has_len N dec -> has_len N pmra ->
        has_len N pmdec -> has_len N rv -> has_len N dist ->
        opt_has_len N pmra_error -> opt_has_len N pmdec_error ->
        opt_has_len N rv_error -> opt_has_len N dist_error ->
        exists r,
          equatorial_UVW ra dec pmra pmdec rv dist
            pmra_error pmdec_error rv_error dist_error = Ok r).
Proof.
  assert (Hnone :
    all_None pmra_error pmdec_error rv_error dist_error = true
    <-> pmra_error = None /\ pmdec_error = None /\ rv_error = None
        /\ dist_error = None).
  { unfold all_None.
    destruct pmra_error, pmdec_error, rv_error, dist_error; simpl;
      split; try discriminate; try tauto;
      intros (? & ? & ? & ?); discriminate. }
  split; [|split].
  - intros r Hrun. apply equatorial_UVW_length in Hrun.
    destruct (all_None pmra_error pmdec_error rv_error dist_error).
    + rewrite Hrun. split; split; try tauto; discriminate.
    + assert (Hno : ~ (pmra_error = None /\ pmdec_error = None
                       /\ rv_error = None /\ dist_error = None)).
      { intros Hall. apply Hnone in Hall. discriminate Hall. }
      rewrite Hrun. split; split; try tauto; discriminate.
  - intros Hsome.
    assert (Hf : all_None pmra_error pmdec_error rv_error dist_error
                 = false).
    { destruct (all_None pmra_error pmdec_error rv_error dist_error);
        [|reflexivity].
      exfalso. apply Hsome. now apply Hnone. }
    unfold all_None in Hf. unfold equatorial_UVW.
    rewrite !supplied_mismatch_zeros, Hf.
    reflexivity.
  - intros N. intros. to_tab. rewrite equatorial_UVW_tab. eauto.
Qed.

Lemma equatorial_UVW_result_arity_witness :
  (exists r,
     equatorial_UVW (Array [10; 200]) (Array [-5; 40]) (Array [3; -2])
       (Array [1; 7]) (Array [-20; 15]) (Array [100; 250])
       None None None None = Ok r
     /\ length r = 3%nat)
  /\ (exists r,
        equatorial_UVW (Array [10; 200]) (Array [-5; 40]) (Array [3; -2])
          (Array [1; 7]) (Array [-20; 15]) (Array [100; 250])
          None None (Some (Array [0.5; 2])) None = Ok r
        /\ length r = 6%nat
        /\ equatorial_UVW (Array [10; 200]) (Array [-5; 40])
             (Array [3; -2]) (Array [1; 7]) (Array [-20; 15])
             (Array [100; 250])
             (Some (np_zeros 2)) (Some (np_zeros 2))
             (Some (Array [0.5; 2])) (Some (np_zeros 2)) = Ok r).
Proof.
  split.
  - destruct (equatorial_UVW_result_arity
                (Array [10; 200]) (Array [-5; 40]) (Array [3; -2])
                (Array [1; 7]) (Array [-20; 15]) (Array [100; 250])
                None None None None) as (Hlen & _ & Hret).
    destruct (Hret 2%nat) as [r Hr]; try reflexivity; try exact I.
    exists r. split; [exact Hr|].
    apply (proj1 (Hlen r Hr)). repeat split.
  - destruct (equatorial_UVW_result_arity
                (Array [10; 200]) (Array [-5; 40]) (Array [3; -2])
                (Array [1; 7]) (Array [-20; 15]) (Array [100; 250])
                None None (Some (Array [0.5; 2])) None)
      as (Hlen & Hzero & Hret).
    destruct (Hret 2%nat) as [r Hr]; try reflexivity; try exact I.
    assert (Hsome : ~ (@None value = None /\ @None value = None
                       /\ Some (Array [0.5; 2]) = None
                       /\ @None value = None)).
    { intros (_ & _ & Habs & _). discriminate Habs. }
    exists r. split; [exact Hr|]. split.
    + apply (proj2 (Hlen r Hr)). exact Hsome.
    + rewrite <- Hr. symmetry. exact (Hzero Hsome).
Defined.

(** ** Which ValueErrors the arithmetic can raise *)

Lemma obe_ok {A : Type} (a : A) : only_broadcast_errors (Ok a).
Proof. intros msg H. discriminate H. Qed.

Lemma obe_pure (v : value) : only_broadcast_errors (pure_value v).
Proof. apply obe_ok. Qed.

Lemma obe_bind {A B : Type} (m : res A) (k : A -> res B) :
  only_broadcast_errors m -> (forall a, only_broadcast_errors (k a)) ->
  only_broadcast_errors (bind m k).
Proof.
  intros Hm Hk msg H. destruct m as [a|e]; simpl in H.
  - exact (Hk a msg H).
  - apply Hm. injection H as ->. reflexivity.
Qed.

Lemma obe_broadcast f a b : only_broadcast_errors (broadcast f a b).
Proof.
  intros msg H. unfold broadcast in H.
  destruct a as [x|xs], b as [y|ys]; try discriminate H.
  destruct (length xs =? length ys)%nat; [discriminate H|].
  destruct xs as [|x [|x' xs]], ys as [|y [|y' ys]]; simpl in H;
    try discriminate H; injection H as <-; reflexivity.
Qed.

Lemma obe_binop f a b :
  only_broadcast_errors a -> only_broadcast_errors b ->
  only_broadcast_errors (np_binop f a b).
Proof.
  intros Ha Hb. unfold np_binop.
  apply obe_bind; [assumption|]. intros x.
  apply obe_bind; [assumption|]. intros y.
  apply obe_broadcast.
Qed.

Lemma obe_unop f a :
  only_broadcast_errors a -> only_broadcast_errors (np_unop f a).
Proof.
  intros Ha. unfold np_unop.
  apply obe_bind; [assumption|]. intros x. apply obe_ok.
Qed.

Lemma obe_kappa_loop v idxs : forall out,
  only_broadcast_errors (kappa_loop v idxs out).
Proof.
  induction idxs as [|i rest IH]; intros out; simpl.
  - apply obe_ok.
  - apply obe_bind; [|intros x; apply IH].
    intros msg H. unfold getitem in H.
    destruct v as [x|xs]; [discriminate H|].
    destruct (nth_error xs i); discriminate H.
Qed.

Lemma obe_kappa_times v : only_broadcast_errors (kappa_times v).
Proof.
  unfold kappa_times. apply obe_bind.
  - intros msg H. destruct v; discriminate H.
  - intros n. apply obe_kappa_loop.
Qed.

Create HintDb obe.
#[global] Hint Resolve obe_ok obe_pure obe_binop obe_unop obe_kappa_times
  : obe.

Ltac obe_expr :=
  unfold np_sin, np_cos, np_radians, np_degrees, np_arcsin, np_sqrt,
    np_abs, np_arctan2, np_pow;
  auto 30 with obe.

Ltac obe_steps :=
  repeat (apply obe_bind; [solve [obe_expr] | intros ?]).

Lemma supplied_mismatch_size_ok n e :
  opt_size_ok n e -> supplied_mismatch e n = false.
Proof.
  destruct e as [v|]; simpl; [|reflexivity].
  intros ->. now rewrite Nat.eqb_refl.
Qed.

(** C9. [equatorial_UVW] does not check the length of [rv]: when [ra],
    [dec], [pmra], [pmdec], [dist] share their size and each supplied error
    array has it, the call raises none of the five errors of its
    validation, whatever [rv] is. *)
Theorem equatorial_UVW_rv_unchecked (N : nat)
  (ra dec pmra pmdec rv dist : value)
  (pmra_error pmdec_error rv_error dist_error : option value) :
  np_size ra = N -> np_size dec = N -> np_size pmra = N ->
  np_size pmdec = N -> np_size dist = N ->
  opt_size_ok N pmra_error -> opt_size_ok N pmdec_error ->
  opt_size_ok N rv_error -> opt_size_ok N dist_error ->
  forall msg, In msg UVW_validation_messages ->
    equatorial_UVW ra dec pmra pmdec rv dist
      pmra_error pmdec_error rv_error dist_error
    <> Raise (ValueError msg).
Proof.
  intros Hra Hdec Hpmra Hpmdec Hdist H1 H2 H3 H4 msg Hin Hraise.
  assert (Hobe : only_broadcast_errors
            (equatorial_UVW ra dec pmra pmdec rv dist
               pmra_error pmdec_error rv_error dist_error)).
  { unfold equatorial_UVW. cbv zeta.
    rewrite Hra, Hdec, Hpmra, Hpmdec, Hdist, Nat.eqb_refl.
    rewrite !supplied_mismatch_size_ok by assumption.
    cbn [negb orb].
    obe_steps.
    destruct (is_None pmra_error && is_None pmdec_error
              && is_None rv_error && is_None dist_error).
    - apply obe_ok.
    - obe_steps. apply obe_ok. }
  apply Hobe in Hraise. subst msg.
  unfold UVW_validation_messages, broadcast_message in Hin.
  simpl in Hin. intuition discriminate.
Qed.

Lemma equatorial_UVW_rv_unchecked_witness :
  equatorial_UVW (Array [10; 200; 30]) (Array [-5; 40; 0])
    (Array [3; -2; 1]) (Array [1; 7; 2]) (Array [-20; 15]) 
    (Array [100; 250; 80]) None None None None
  <> Raise (ValueError "ra, dec, pmra, pmdec, rv and distance must all be numpy arrays of the same size !").
Proof.
  apply (equatorial_UVW_rv_unchecked 3
           (Array [10; 200; 30]) (Array [-5; 40; 0])
           (Array [3; -2; 1]) (Array [1; 7; 2]) (Array [-20; 15]) 
           (Array [100; 250; 80]) None None None None);
    try reflexivity; try exact I.
  simpl. left. reflexivity.
Defined.

(** ** Scalars in place of arrays *)

Lemma tab_one f : tab 1 f = [f 0%nat].
Proof. reflexivity. Qed.

Lemma equatorial_XYZ_scalar ra dec dist (dist_error : option R) :
  equatorial_XYZ (Scalar ra) (Scalar dec) (Scalar dist)
    (option_map Scalar dist_error)
  = Ok ([ Scalar (cos (radians (Star.gb ra dec))
                  * cos (radians (Star.gl ra dec)) * dist);
          Scalar (cos (radians (Star.gb ra dec))
                  * sin (radians (Star.gl ra dec)) * dist);
          Scalar (sin (radians (Star.gb ra dec)) * dist) ]
        ++ match dist_error with
           | None => []
           | Some e =>
               [ Scalar (Rabs (cos (radians (Star.gb ra dec))
                               * cos (radians (Star.gl ra dec)) * e));
                 Scalar (Rabs (cos (radians (Star.gb ra dec))
                               * sin (radians (Star.gl ra dec)) * e));
                 Scalar (Rabs (sin (radians (Star.gb ra dec)) * e)) ]
           end).
Proof.
  unfold equatorial_XYZ.
  assert (Hm : supplied_mismatch (option_map Scalar dist_error)
                 (np_size (Scalar ra)) = false)
    by (destruct dist_error; reflexivity).
  rewrite Hm. cbn [np_size Nat.eqb negb orb].
  rewrite equatorial_galactic_scalar. cbn [bind].
  np_eval.
  destruct dist_error as [e|]; cbn [option_map]; np_eval; reflexivity.
Qed.

Lemma equatorial_UVW_scalar ra dec pmra pmdec rv dist
  (pmra_error pmdec_error rv_error dist_error : option R) :
  equatorial_UVW (Scalar ra) (Scalar dec) (Scalar pmra) (Scalar pmdec)
    (Scalar rv) (Scalar dist)
    (option_map Scalar pmra_error) (option_map Scalar pmdec_error)
    (option_map Scalar rv_error) (option_map Scalar dist_error)
  = Raise (TypeError "object of type 'float' has no len()").
Proof.
  unfold equatorial_UVW.
  assert (Hm : forall e : option R,
            supplied_mismatch (option_map Scalar e) (np_size (Scalar ra))
            = false)
    by (intros [e|]; reflexivity).
  rewrite !Hm. cbn [np_size Nat.eqb negb orb].
  np_eval. reflexivity.
Qed.

(** C10, as the code has it.  [equatorial_galactic] and [equatorial_XYZ]
    accept scalars in place of arrays and return, as scalars, the values
    they return in arrays on the length-1 arrays of the same numbers;
    [equatorial_UVW] does not: on a scalar [dist] it raises TypeError at
    [len(dist)]. *)
Theorem scalar_inputs (ra dec dist pmra pmdec rv e_dist : R)
  (pmra_error pmdec_error rv_error dist_error : option R) :
  (exists gl gb,
     equatorial_galactic (Scalar ra) (Scalar dec)
     = Ok (Scalar gl, Scalar gb)
     /\ equatorial_galactic (Array [ra]) (Array [dec])
        = Ok (Array [gl], Array [gb]))
  /\ (exists X Y Z,
        equatorial_XYZ (Scalar ra) (Scalar dec) (Scalar dist) None
        = Ok [Scalar X; Scalar Y; Scalar Z]
        /\ equatorial_XYZ (Array [ra]) (Array [dec]) (Array [dist]) None
           = Ok [Array [X]; Array [Y]; Array [Z]])
  /\ (exists X Y Z EX EY EZ,
        equatorial_XYZ (Scalar ra) (Scalar dec) (Scalar dist)
          (Some (Scalar e_dist))
        = Ok [Scalar X; Scalar Y; Scalar Z; Scalar EX; Scalar EY; Scalar EZ]
        /\ equatorial_XYZ (Array [ra]) (Array [dec]) (Array [dist])
             (Some (Array [e_dist]))
           = Ok [Array [X]; Array [Y]; Array [Z];
                 Array [EX]; Array [EY]; Array [EZ]])
  /\ equatorial_UVW (Scalar ra) (Scalar dec) (Scalar pmra) (Scalar pmdec)
       (Scalar rv) (Scalar dist)
       (option_map Scalar pmra_error) (option_map Scalar pmdec_error)
       (option_map Scalar rv_error) (option_map Scalar dist_error)
     = Raise (TypeError "object of type 'float' has no len()").
Proof.
  pose proof (equatorial_galactic_tab 1 (fun _ => ra) (fun _ => dec)) as Hg.
  pose proof (equatorial_XYZ_tab 1 (fun _ => ra) (fun _ => dec)
                (fun _ => dist) None) as H3.
  pose proof (equatorial_XYZ_tab 1 (fun _ => ra) (fun _ => dec)
                (fun _ => dist) (Some (fun _ => e_dist))) as H6.
  cbn [tab_opt option_map app] in H3, H6.
  rewrite !tab_one in Hg, H3, H6.
  split; [|split; [|split]].
  - do 2 eexists. split; [apply equatorial_galactic_scalar | exact Hg].
  - do 3 eexists. split; [|exact H3].
    apply (equatorial_XYZ_scalar ra dec dist None).
  - do 6 eexists. split; [|exact H6].
    apply (equatorial_XYZ_scalar ra dec dist (Some e_dist)).
  - apply equatorial_UVW_scalar.
Qed.

(** C10, as stated, fails for [equatorial_UVW]: the call on length-1
    arrays returns, the call on the same numbers as scalars raises. *)
Lemma scalar_inputs_counterexample :
  (exists r,
     equatorial_UVW (Array [10]) (Array [-5]) (Array [3]) (Array [1])
       (Array [-20]) (Array [100]) None None None None = Ok r)
  /\ equatorial_UVW (Scalar 10) (Scalar (-5)) (Scalar 3) (Scalar 1)
       (Scalar (-20)) (Scalar 100) None None None None
     = Raise (TypeError "object of type 'float' has no len()").
Proof.
  split.
  - pose proof (equatorial_UVW_tab 1 (fun _ => 10) (fun _ => -5)
                  (fun _ => 3) (fun _ => 1) (fun _ => -20) (fun _ => 100)
                  None None None None) as H.
    cbn [tab_opt option_map] in H. rewrite !tab_one in H. eauto.
  - apply (equatorial_UVW_scalar 10 (-5) 3 1 (-20) 100 None None None None).
Qed.

(** What happens to an [rv] of another length after the validation: numpy
    broadcasts it when it can and raises its own error when it cannot. *)
Example equatorial_UVW_rv_too_short :
  equatorial_UVW (Array [10; 200; 30]) (Array [-5; 40; 0])
    (Array [3; -2; 1]) (Array [1; 7; 2]) (Array [-20; 15])
    (Array [100; 250; 80]) None None None None
  = Raise (ValueError broadcast_message).
Proof.
  change (Array [10; 200; 30])
    with (Array (tab 3 (fun i => nth i [10; 200; 30] 0))).
  change (Array [-5; 40; 0])
    with (Array (tab 3 (fun i => nth i [-5; 40; 0] 0))).
  change (Array [3; -2; 1])
    with (Array (tab 3 (fun i => nth i [3; -2; 1] 0))).
  change (Array [1; 7; 2])
    with (Array (tab 3 (fun i => nth i [1; 7; 2] 0))).
  change (Array [100; 250; 80])
    with (Array (tab 3 (fun i => nth i [100; 250; 80] 0))).
  unfold equatorial_UVW.
  rewrite !np_size_tab. cbn [Nat.eqb negb orb supplied_mismatch].
  np_eval.
  unfold np_binop at 3. cbn [bind broadcast].
  rewrite tab_length. reflexivity.
Qed.

Example equatorial_UVW_rv_length_one :
  exists U V W,
    equatorial_UVW (Array [10; 200; 30]) (Array [-5; 40; 0])
      (Array [3; -2; 1]) (Array [1; 7; 2]) (Array [-20])
      (Array [100; 250; 80]) None None None None
    = Ok [U; V; W]
    /\ has_len 3 U
    /\ item U 2 = Star.velocity 0 30 0 1 2 (-20) 80.
Proof.
  change (Array [10; 200; 30])
    with (Array (tab 3 (fun i => nth i [10; 200; 30] 0))).
  change (Array [-5; 40; 0])
    with (Array (tab 3 (fun i => nth i [-5; 40; 0] 0))).
  change (Array [3; -2; 1])
    with (Array (tab 3 (fun i => nth i [3; -2; 1] 0))).
  change (Array [1; 7; 2])
    with (Array (tab 3 (fun i => nth i [1; 7; 2] 0))).
  change (Array [100; 250; 80])
    with (Array (tab 3 (fun i => nth i [100; 250; 80] 0))).
  unfold equatorial_UVW.
  rewrite !np_size_tab. cbn [Nat.eqb negb orb supplied_mismatch].
  np_eval. rewrite !binop_tab_one. np_eval.
  do 3 eexists. split; [reflexivity|].
  split; [apply has_len_tab_intro|].
  rewrite item_tab by lia. reflexivity.
Qed.

(** * Further properties of the code *)

(** ** Angles *)

Lemma radians_degrees x : radians (degrees x) = x.
Proof.
  unfold radians, degrees. field. apply PI_neq0.
Qed.

Lemma degrees_quarter_turn : degrees (PI / 2) = 90.
Proof. unfold degrees. field. apply PI_neq0. Qed.

Lemma degrees_le x y : x <= y -> degrees x <= degrees y.
Proof.
  intros H. unfold degrees. apply Rmult_le_compat_r; [|assumption].
  apply Rlt_le, Rdiv_lt_0_compat; [lra | apply PI_RGT_0].
Qed.

Lemma degrees_opp x : degrees (- x) = - degrees x.
Proof. unfold degrees. ring. Qed.


Lemma pole_identity : sin_dec_pol * sin_dec_pol + cos_dec_pol * cos_dec_pol = 1.
Proof.
  unfold sin_dec_pol, cos_dec_pol.
  pose proof (sin2_cos2 (radians dec_pol)) as H. unfold Rsqr in H. exact H.
Qed.

(** The sine of the latitude is a scalar product of two unit vectors. *)
Lemma gamma_bound ra dec : -1 <= Star.gamma ra dec <= 1.
Proof.
  unfold Star.gamma.
  pose proof pole_identity as Hp.
  pose proof (sin2_cos2 (radians dec)) as Hd. unfold Rsqr in Hd.
  pose proof (COS_bound (radians (ra - ra_pol))) as [Hc1 Hc2].
  set (sp := sin_dec_pol) in *. set (cp := cos_dec_pol) in *.
  set (sd := sin (radians dec)) in *. set (cd := cos (radians dec)) in *.
  set (c := cos (radians (ra - ra_pol))) in *.
  clearbody sp cp sd cd c.
  pose proof (Rle_0_sqr (sp - sd)) as S1.
  pose proof (Rle_0_sqr (cp - cd)) as S2.
  pose proof (Rle_0_sqr (sp + sd)) as S3.
  pose proof (Rle_0_sqr (cp + cd)) as S4.
  unfold Rsqr in S1, S2, S3, S4.
  assert (A1 : 0 <= 1 - (sp * sd + cp * cd)) by nra.
  assert (A2 : 0 <= 1 - (sp * sd - cp * cd)) by nra.
  assert (A3 : 0 <= 1 + (sp * sd + cp * cd)) by nra.
  assert (A4 : 0 <= 1 + (sp * sd - cp * cd)) by nra.
  clear S1 S2 S3 S4 Hp Hd.
  split; nra.
Qed.

Lemma gb_bound ra dec : -90 <= Star.gb ra dec <= 90.
Proof.
  unfold Star.gb.
  pose proof (asin_bound (Star.gamma ra dec)) as [Hlo Hhi].
  apply degrees_le in Hlo. apply degrees_le in Hhi.
  rewrite degrees_opp in Hlo. rewrite degrees_quarter_turn in Hlo, Hhi.
  split; assumption.
Qed.

Lemma sin_gb ra dec : sin (radians (Star.gb ra dec)) = Star.gamma ra dec.
Proof.
  unfold Star.gb. rewrite radians_degrees.
  apply sin_asin, gamma_bound.
Qed.




(** X1. Whenever [equatorial_galactic] returns, each element of the
    latitude [gb] is [degrees(arcsin(gamma))] with
    [gamma = sin(dec_pol)*sin(dec) + cos(dec_pol)*cos(dec)*cos(ra - ra_pol)];
    [gamma] lies in [-1, 1], so that [gb] lies in [-90, 90] and its sine
    is [gamma]. *)
Theorem equatorial_galactic_latitude (ra dec gl gb : value) :
  equatorial_galactic ra dec = Ok (gl, gb) ->
  forall i, (i < np_size gb)%nat ->
    item gb i = degrees (asin (Star.gamma (item ra i) (item dec i)))
    /\ -1 <= Star.gamma (item ra i) (item dec i) <= 1
    /\ -90 <= item gb i <= 90
    /\ sin (radians (item gb i)) = Star.gamma (item ra i) (item dec i).
Proof.
  intros Hrun i Hi.
  assert (Hsz : np_size dec = np_size ra).
  { unfold equatorial_galactic in Hrun.
    destruct (np_size dec =? np_size ra)%nat eqn:E; [|discriminate Hrun].
    now apply Nat.eqb_eq. }
  rewrite (equatorial_galactic_items _ _ Hsz) in Hrun.
  injection Hrun as <- <-.
  assert (E : item (shaped (is_array ra || is_array dec) (np_size ra)
                      (fun i => Star.gb (item ra i) (item dec i))) i
              = Star.gb (item ra i) (item dec i)).
  { destruct (is_array ra || is_array dec); cbn [shaped np_size] in *.
    - rewrite tab_length in Hi. now rewrite item_tab.
    - assert (i = 0%nat) as -> by lia. reflexivity. }
  rewrite E.
  split; [reflexivity|]. split; [apply gamma_bound|].
  split; [apply gb_bound | apply sin_gb].
Qed.

Lemma equatorial_galactic_latitude_witness :
  exists gl gb,
    equatorial_galactic (Array [10; 200]) (Array [-5; 40]) = Ok (gl, gb)
    /\ -90 <= item gb 1 <= 90.
Proof.
  destruct (equatorial_galactic (Array [10; 200]) (Array [-5; 40]))
    as [[gl gb]|e] eqn:E; [|discriminate E].
  exists gl, gb. split; [reflexivity|].
  apply (equatorial_galactic_latitude
           (Array [10; 200]) (Array [-5; 40]) gl gb E 1%nat).
  injection E as _ <-. simpl. lia.
Defined.



(** ** Broadcasting keeps shapes *)

Lemma zip_with_length f xs : forall ys,
  length xs = length ys -> length (zip_with f xs ys) = length xs.
Proof.
  induction xs as [|x xs IH]; intros [|y ys] H; simpl in *;
    try reflexivity; try discriminate H.
  now rewrite IH by (now injection H).
Qed.

Lemma bsized_of_size M v : np_size v = M -> bsized M v.
Proof. destruct v as [x|xs]; simpl; [trivial | now left]. Qed.

Lemma bsized_unit M v : np_size v = 1%nat -> bsized M v.
Proof. destruct v as [x|xs]; simpl; [trivial | now right]. Qed.

Lemma bsized_scalar M x : bsized M (Scalar x).
Proof. exact I. Qed.

Lemma bsized_umap M f v : bsized M v -> bsized M (umap f v).
Proof. destruct v as [x|xs]; simpl; [trivial | now rewrite length_map]. Qed.

Lemma fits_pure M v : bsized M v -> fits M (pure_value v).
Proof. intros H. exists v. now split. Qed.

Lemma fits_broadcast M f a b :
  bsized M a -> bsized M b -> fits M (broadcast f a b).
Proof.
  destruct a as [x|xs], b as [y|ys]; simpl; intros Ha Hb.
  - eexists; split; [reflexivity | exact I].
  - eexists; split; [reflexivity|]. simpl. now rewrite length_map.
  - eexists; split; [reflexivity|]. simpl. now rewrite length_map.
  - destruct (length xs =? length ys)%nat eqn:E.
    + apply Nat.eqb_eq in E.
      eexists; split; [reflexivity|]. simpl.
      now rewrite zip_with_length.
    + apply Nat.eqb_neq in E.
      destruct xs as [|x [|x' xs]], ys as [|y [|y' ys]]; simpl in *;
        try lia;
        (eexists; split; [reflexivity|]; simpl; rewrite ?length_map;
         simpl; lia).
Qed.

Lemma fits_binop M f a b :
  fits M a -> fits M b -> fits M (np_binop f a b).
Proof.
  intros (x & -> & Hx) (y & -> & Hy). unfold np_binop. cbn [bind].
  now apply fits_broadcast.
Qed.

Lemma fits_unop M f a : fits M a -> fits M (np_unop f a).
Proof.
  intros (x & -> & Hx). unfold np_unop. cbn [bind].
  eexists; split; [reflexivity|]. now apply bsized_umap.
Qed.

Lemma returns_bind M (m : res value) {B : Type} (k : value -> res B) :
  fits M m -> (forall v, bsized M v -> returns (k v)) ->
  returns (bind m k).
Proof. intros (v & -> & Hv) Hk. cbn [bind]. now apply Hk. Qed.

Lemma bsized_shaped n b f : bsized n (shaped b n f).
Proof. destruct b; simpl; [left; apply tab_length | exact I]. Qed.

Create HintDb fits.
#[global] Hint Resolve fits_pure fits_binop fits_unop bsized_scalar
  bsized_of_size : fits.

Ltac fits_expr :=
  unfold np_sin, np_cos, np_radians, np_degrees, np_arcsin, np_sqrt,
    np_abs, np_arctan2, np_pow;
  auto 30 with fits.

Ltac returns_steps M :=
  repeat (apply (returns_bind M); [solve [fits_expr] | intros ? ?]).

(** ** The checks of equatorial_XYZ *)

(** X3. [equatorial_XYZ] raises its first ValueError when the size of
    [dec] or of [dist] is not that of [ra], its second when these agree
    and a supplied [dist_error] has another size, and otherwise returns:
    three values without [dist_error], six with it, whether the inputs are
    arrays or scalars. *)
Theorem equatorial_XYZ_shape_check (ra dec dist : value)
  (dist_error : option value) :
  (np_size dec <> np_size ra \/ np_size dist <> np_size ra ->
   equatorial_XYZ ra dec dist dist_error
   = Raise (ValueError "ra, dec and distance must all be numpy arrays of the same size !"))
  /\ (np_size dec = np_size ra -> np_size dist = np_size ra ->
      ~ opt_size_ok (np_size ra) dist_error ->
      equatorial_XYZ ra dec dist dist_error
      = Raise (ValueError "dist_error must be a numpy array of the same size as ra !"))
  /\ (np_size dec = np_size ra -> np_size dist = np_size ra ->
      opt_size_ok (np_size ra) dist_error ->
      exists r,
        equatorial_XYZ ra dec dist dist_error = Ok r
        /\ length r = match dist_error with
                      | None => 3%nat
                      | Some _ => 6%nat
                      end).
Proof.
  split; [|split].
  - intros Hne. unfold equatorial_XYZ.
    destruct Hne as [Hne|Hne]; apply Nat.eqb_neq in Hne; rewrite Hne;
      cbn [negb orb]; [reflexivity | now rewrite orb_true_r].
  - intros Hdec Hdist Herr. unfold equatorial_XYZ.
    rewrite Hdec, Hdist, Nat.eqb_refl. cbn [negb orb].
    destruct dist_error as [v|]; [|now elim Herr].
    simpl in Herr. apply Nat.eqb_neq in Herr.
    cbn [supplied_mismatch]. now rewrite Herr.
  - intros Hdec Hdist Herr.
    assert (G : returns (equatorial_XYZ ra dec dist dist_error)
                /\ forall r, equatorial_XYZ ra dec dist dist_error = Ok r ->
                     length r = match dist_error with
                                | None => 3%nat
                                | Some _ => 6%nat
                                end).
    { unfold equatorial_XYZ.
      rewrite Hdec, Hdist, Nat.eqb_refl,
        (supplied_mismatch_size_ok _ _ Herr).
      cbn [negb orb]. rewrite (equatorial_galactic_items _ _ Hdec).
      cbn [bind].
      pose proof (bsized_shaped (np_size ra) (is_array ra || is_array dec)
                    (fun i => Star.gl (item ra i) (item dec i))) as Hgl.
      pose proof (bsized_shaped (np_size ra) (is_array ra || is_array dec)
                    (fun i => Star.gb (item ra i) (item dec i))) as Hgb.
      set (gl := shaped _ _ (fun i => Star.gl _ _)) in *.
      set (gb := shaped _ _ (fun i => Star.gb _ _)) in *.
      clearbody gl gb.
      split.
      - returns_steps (np_size ra).
        destruct dist_error as [e|]; [|eexists; reflexivity].
        simpl in Herr.
        returns_steps (np_size ra). eexists; reflexivity.
      - intros r H. bind_inv H.
        destruct dist_error as [e|]; [|now injection H as <-].
        bind_inv H. now injection H as <-. }
    destruct G as [[r Hr] Hlen]. exists r. split; [exact Hr | now apply Hlen].
Qed.

Lemma equatorial_XYZ_shape_check_witness :
  equatorial_XYZ (Array [10; 200]) (Array [-5; 40]) (Array [100])
    (Some (Array [1; 2; 3]))
  = Raise (ValueError "ra, dec and distance must all be numpy arrays of the same size !")
  /\ equatorial_XYZ (Array [10; 200]) (Array [-5; 40]) (Array [100; 250])
       (Some (Array [1; 2; 3]))
     = Raise (ValueError "dist_error must be a numpy array of the same size as ra !")
  /\ exists r,
       equatorial_XYZ (Array [10]) (Scalar (-5)) (Array [100])
         (Some (Scalar 2)) = Ok r
       /\ length r = 6%nat.
Proof.
  split; [|split].
  - apply (proj1 (equatorial_XYZ_shape_check (Array [10; 200])
                    (Array [-5; 40]) (Array [100])
                    (Some (Array [1; 2; 3])))).
    right. simpl. lia.
  - apply (proj1 (proj2 (equatorial_XYZ_shape_check (Array [10; 200])
                           (Array [-5; 40]) (Array [100; 250])
                           (Some (Array [1; 2; 3])))));
      try reflexivity.
    simpl. lia.
  - apply (proj2 (proj2 (equatorial_XYZ_shape_check (Array [10])
                           (Scalar (-5)) (Array [100])
                           (Some (Scalar 2)))));
      reflexivity.
Defined.

(** ** Lengths of the position and of its error *)

Lemma direction_unit b l (d : R) :
  (cos b * cos l * d) ^ 2 + (cos b * sin l * d) ^ 2 + (sin b * d) ^ 2
  = d ^ 2.
Proof.
  pose proof (sin2_cos2 b) as Hb. pose proof (sin2_cos2 l) as Hl.
  unfold Rsqr in Hb, Hl.
  replace ((cos b * cos l * d) ^ 2 + (cos b * sin l * d) ^ 2
           + (sin b * d) ^ 2)
    with (d ^ 2 * (cos b * cos b * (sin l * sin l + cos l * cos l)
                   + sin b * sin b)) by ring.
  rewrite Hl, Rmult_1_r, Rplus_comm, Hb. ring.
Qed.

(** X4. The position [equatorial_XYZ] returns is at the distance it was
    given: [X^2 + Y^2 + Z^2 = dist^2] star by star, and [Z] is
    [gamma*dist], [gamma] being the sine of the latitude computed by
    [equatorial_galactic]. *)
Theorem equatorial_XYZ_distance (N : nat) (ra dec dist : value)
  (dist_error : option value) :
  has_len N ra -> has_len N dec -> has_len N dist ->
  opt_has_len N dist_error ->
  exists X Y Z errors,
    equatorial_XYZ ra dec dist dist_error = Ok (X :: Y :: Z :: errors)
    /\ forall i, (i < N)%nat ->
         item X i ^ 2 + item Y i ^ 2 + item Z i ^ 2 = item dist i ^ 2
         /\ item Z i = Star.gamma (item ra i) (item dec i) * item dist i.
Proof.
  intros. to_tab. rewrite equatorial_XYZ_tab. cbn [app].
  do 4 eexists. split; [reflexivity|].
  intros i Hi. rewrite !item_tab by assumption.
  split; [apply direction_unit | now rewrite sin_gb].
Qed.

Lemma equatorial_XYZ_distance_witness :
  exists X Y Z errors,
    equatorial_XYZ (Array [10; 200]) (Array [-5; 40]) (Array [100; 250])
      None = Ok (X :: Y :: Z :: errors)
    /\ item X 1 ^ 2 + item Y 1 ^ 2 + item Z 1 ^ 2 = 250 ^ 2.
Proof.
  destruct (equatorial_XYZ_distance 2
              (Array [10; 200]) (Array [-5; 40]) (Array [100; 250]) None)
    as (X & Y & Z & errors & Hrun & Hd); try reflexivity; try exact I.
  exists X, Y, Z, errors. split; [exact Hrun|].
  apply (Hd 1%nat). lia.
Defined.

(** X5. The error [equatorial_XYZ] returns has the size of the distance
    error it was given: [EX^2 + EY^2 + EZ^2 = dist_error^2] star by star,
    each of [EX], [EY], [EZ] being non-negative and at most
    [|dist_error|]. *)
Theorem equatorial_XYZ_error_size (N : nat) (ra dec dist dist_error : value) :
  has_len N ra -> has_len N dec -> has_len N dist ->
  has_len N dist_error ->
  exists X Y Z EX EY EZ,
    equatorial_XYZ ra dec dist (Some dist_error)
    = Ok [X; Y; Z; EX; EY; EZ]
    /\ forall i, (i < N)%nat ->
         item EX i ^ 2 + item EY i ^ 2 + item EZ i ^ 2
         = item dist_error i ^ 2
         /\ 0 <= item EX i <= Rabs (item dist_error i)
         /\ 0 <= item EY i <= Rabs (item dist_error i)
         /\ 0 <= item EZ i <= Rabs (item dist_error i).
Proof.
  intros. to_tab.
  match goal with
  | |- context [Some (Array (tab N ?f))] =>
      change (Some (Array (tab N f))) with (tab_opt N (Some f))
  end.
  rewrite equatorial_XYZ_tab. cbn [app].
  do 6 eexists. split; [reflexivity|].
  intros i Hi. rewrite !item_tab by assumption.
  match goal with
  | |- Rabs (cos ?b * cos ?l * ?d) ^ 2 + _ + _ = _ /\ _ =>
      pose proof (direction_unit b l d) as Hu;
      set (x := cos b * cos l * d) in *;
      set (y := cos b * sin l * d) in *;
      set (z := sin b * d) in *;
      set (e := d) in *
  end.
  clearbody x y z.
  rewrite !pow2_abs.
  pose proof (Rabs_pos x) as Px. pose proof (Rabs_pos y) as Py.
  pose proof (Rabs_pos z) as Pz. pose proof (Rabs_pos e) as Pe.
  pose proof (pow2_abs x) as Ax. pose proof (pow2_abs y) as Ay.
  pose proof (pow2_abs z) as Az. pose proof (pow2_abs e) as Ae.
  split; [exact Hu|].
  repeat split; try assumption; nra.
Qed.

Lemma equatorial_XYZ_error_size_witness :
  exists X Y Z EX EY EZ,
    equatorial_XYZ (Array [10; 200]) (Array [-5; 40]) (Array [100; 250])
      (Some (Array [2; -3])) = Ok [X; Y; Z; EX; EY; EZ]
    /\ item EX 1 ^ 2 + item EY 1 ^ 2 + item EZ 1 ^ 2 = (-3) ^ 2.
Proof.
  destruct (equatorial_XYZ_error_size 2
              (Array [10; 200]) (Array [-5; 40]) (Array [100; 250])
              (Array [2; -3]))
    as (X & Y & Z & EX & EY & EZ & Hrun & Hd); try reflexivity.
  exists X, Y, Z, EX, EY, EZ. split; [exact Hrun|].
  apply (Hd 1%nat). lia.
Defined.

(** ** The loop that scales distances *)

(** X6. The loop [for i in range(len(v)): out.append(kappa*v[i])] builds,
    on an array, the list of its elements times [kappa], in order (what
    [kappa*v] would give), and raises TypeError on a scalar. *)
Theorem kappa_times_vectorised :
  (forall xs, kappa_times (Array xs) = Ok (map (fun x => kappa * x) xs))
  /\ (forall x, exists msg, kappa_times (Scalar x) = Raise (TypeError msg)).
Proof.
  split.
  - intros xs. rewrite (tab_of_list xs) at 1. rewrite kappa_times_tab.
    rewrite (tab_of_list xs) at 2. now rewrite map_tab.
  - intros x. eexists. apply kappa_times_scalar.
Qed.

(** ** The checks of equatorial_UVW *)

(** X7. The checks of [equatorial_UVW] are made in a fixed order and the
    first that fails decides the error: the sizes of [dec], [pmra],
    [pmdec], [dist] against that of [ra], then the supplied error arrays
    in the order [pmra_error], [pmdec_error], [rv_error], [dist_error]. *)
Theorem equatorial_UVW_shape_check (ra dec pmra pmdec rv dist : value)
  (pmra_error pmdec_error rv_error dist_error : option value) :
  let N := np_size ra in
  let call := equatorial_UVW ra dec pmra pmdec rv dist
                pmra_error pmdec_error rv_error dist_error in
  let sizes_agree := np_size dec = N /\ np_size pmra = N
                     /\ np_size pmdec = N /\ np_size dist = N in
  (~ sizes_agree ->
   call = Raise (ValueError "ra, dec, pmra, pmdec, rv and distance must all be numpy arrays of the same size !"))
  /\ (sizes_agree -> ~ opt_size_ok N pmra_error ->
      call = Raise (ValueError "pmra_error must be a numpy array of the same size as ra !"))
  /\ (sizes_agree -> opt_size_ok N pmra_error ->
      ~ opt_size_ok N pmdec_error ->
      call = Raise (ValueError "pmdec_error must be a numpy array of the same size as ra !"))
  /\ (sizes_agree -> opt_size_ok N pmra_error ->
      opt_size_ok N pmdec_error -> ~ opt_size_ok N rv_error ->
      call = Raise (ValueError "rv_error must be a numpy array of the same size as ra !"))
  /\ (sizes_agree -> opt_size_ok N pmra_error ->
      opt_size_ok N pmdec_error -> opt_size_ok N rv_error ->
      ~ opt_size_ok N dist_error ->
      call = Raise (ValueError "dist_error must be a numpy array of the same size as ra !")).
Proof.
  cbv zeta.
  assert (Hbad : forall e, ~ opt_size_ok (np_size ra) e ->
                   supplied_mismatch e (np_size ra) = true).
  { intros [v|] H; simpl in *; [|now elim H].
    apply Nat.eqb_neq in H. now rewrite H. }
  repeat split.
  - intros Hne. unfold equatorial_UVW.
    destruct (np_size dec =? np_size ra)%nat eqn:E1; [|reflexivity].
    destruct (np_size pmra =? np_size ra)%nat eqn:E2; [|reflexivity].
    destruct (np_size pmdec =? np_size ra)%nat eqn:E3; [|reflexivity].
    destruct (np_size dist =? np_size ra)%nat eqn:E4; [|reflexivity].
    exfalso. apply Hne. repeat split; now apply Nat.eqb_eq.
  - intros (H1 & H2 & H3 & H4) Hp. unfold equatorial_UVW.
    rewrite H1, H2, H3, H4, Nat.eqb_refl. cbn [negb orb].
    now rewrite (Hbad _ Hp).
  - intros (H1 & H2 & H3 & H4) Hp Hd. unfold equatorial_UVW.
    rewrite H1, H2, H3, H4, Nat.eqb_refl. cbn [negb orb].
    now rewrite (supplied_mismatch_size_ok _ _ Hp), (Hbad _ Hd).
  - intros (H1 & H2 & H3 & H4) Hp Hd Hr. unfold equatorial_UVW.
    rewrite H1, H2, H3, H4, Nat.eqb_refl. cbn [negb orb].
    now rewrite (supplied_mismatch_size_ok _ _ Hp),
      (supplied_mismatch_size_ok _ _ Hd), (Hbad _ Hr).
  - intros (H1 & H2 & H3 & H4) Hp Hd Hr Hdi. unfold equatorial_UVW.
    rewrite H1, H2, H3, H4, Nat.eqb_refl. cbn [negb orb].
    now rewrite (supplied_mismatch_size_ok _ _ Hp),
      (supplied_mismatch_size_ok _ _ Hd),
      (supplied_mismatch_size_ok _ _ Hr), (Hbad _ Hdi).
Qed.

Lemma equatorial_UVW_shape_check_witness :
  equatorial_UVW (Array [10; 200]) (Array [-5; 40]) (Array [3])
    (Array [1; 7]) (Array [-20; 15]) (Array [100; 250])
    (Some (Array [1])) None None None
  = Raise (ValueError "ra, dec, pmra, pmdec, rv and distance must all be numpy arrays of the same size !")
  /\ equatorial_UVW (Array [10; 200]) (Array [-5; 40]) (Array [3; -2])
       (Array [1; 7]) (Array [-20; 15]) (Array [100; 250])
       None (Some (Array [1])) None (Some (Array [1; 2; 3]))
     = Raise (ValueError "pmdec_error must be a numpy array of the same size as ra !").
Proof.
  split.
  - apply (proj1 (equatorial_UVW_shape_check
                    (Array [10; 200]) (Array [-5; 40]) (Array [3])
                    (Array [1; 7]) (Array [-20; 15]) (Array [100; 250])
                    (Some (Array [1])) None None None)).
    simpl. intros (_ & H & _). discriminate H.
  - apply (proj1 (proj2 (proj2 (equatorial_UVW_shape_check
                    (Array [10; 200]) (Array [-5; 40]) (Array [3; -2])
                    (Array [1; 7]) (Array [-20; 15]) (Array [100; 250])
                    None (Some (Array [1])) None
                    (Some (Array [1; 2; 3]))))));
      simpl; try tauto.
    intros H. discriminate H.
Defined.

(** ** When equatorial_UVW returns *)

Lemma kappa_times_array xs :
  kappa_times (Array xs) = Ok (map (fun x => kappa * x) xs).
Proof.
  rewrite (tab_of_list xs) at 1. rewrite kappa_times_tab.
  rewrite (tab_of_list xs) at 2. now rewrite map_tab.
Qed.

Lemma bsized_asarray_map M f xs :
  bsized M (Array xs) -> bsized M (np_asarray (map f xs)).
Proof. unfold np_asarray. simpl. now rewrite length_map. Qed.

Lemma bsized_zeros_if_None M N e :
  N = M \/ N = 1%nat -> opt_bsized M e -> bsized M (zeros_if_None e N).
Proof.
  intros HN. destruct e as [v|]; simpl; [trivial|].
  intros _. now rewrite repeat_length.
Qed.

#[global] Hint Resolve bsized_asarray_map bsized_zeros_if_None : fits.

(** The arithmetic of [equatorial_UVW] goes through as soon as every
    operand broadcasts against length [M] and the two loops run on
    sequences. *)
Lemma equatorial_UVW_returns (M N : nat)
  (ra dec pmra pmdec rv dist : value)
  (pmra_error pmdec_error rv_error dist_error : option value) :
  np_size ra = N -> np_size dec = N -> np_size pmra = N ->
  np_size pmdec = N -> np_size dist = N ->
  opt_size_ok N pmra_error -> opt_size_ok N pmdec_error ->
  opt_size_ok N rv_error -> opt_size_ok N dist_error ->
  N = M \/ N = 1%nat ->
  bsized M ra -> bsized M dec -> bsized M pmra -> bsized M pmdec ->
  bsized M rv -> bsized M dist ->
  opt_bsized M pmra_error -> opt_bsized M pmdec_error ->
  opt_bsized M rv_error -> opt_bsized M dist_error ->
  is_sequence dist -> opt_is_sequence dist_error ->
  returns (equatorial_UVW ra dec pmra pmdec rv dist
             pmra_error pmdec_error rv_error dist_error).
Proof.
  intros Hra Hdec Hpmra Hpmdec Hdist S1 S2 S3 S4 HN
    Bra Bdec Bpmra Bpmdec Brv Bdist B1 B2 B3 B4 Qd Qe.
  unfold equatorial_UVW. cbv zeta.
  rewrite Hra, Hdec, Hpmra, Hpmdec, Hdist, Nat.eqb_refl.
  rewrite !supplied_mismatch_size_ok by assumption.
  cbn [negb orb].
  returns_steps M.
  destruct dist as [d|ds]; [contradiction|].
  rewrite kappa_times_array. cbn [bind].
  returns_steps M.
  destruct (is_None pmra_error && is_None pmdec_error
            && is_None rv_error && is_None dist_error).
  - eexists; reflexivity.
  - assert (Hz : exists es, zeros_if_None dist_error N = Array es
                            /\ bsized M (Array es)).
    { destruct dist_error as [[e|es]|]; simpl in *; try contradiction.
      - exists es. now split.
      - eexists. split; [reflexivity|]. simpl. now rewrite repeat_length. }
    destruct Hz as (es & -> & Bes).
    rewrite kappa_times_array. cbn [bind].
    returns_steps M. eexists; reflexivity.
Qed.

Lemma binop_tab_mismatch op n f ys :
  length ys <> n -> n <> 1%nat -> length ys <> 1%nat ->
  np_binop op (Ok (Array (tab n f))) (Ok (Array ys))
  = Raise (ValueError broadcast_message).
Proof.
  intros H1 H2 H3. unfold np_binop; cbn [bind broadcast].
  rewrite tab_length.
  assert (E : (n =? length ys)%nat = false) by (apply Nat.eqb_neq; lia).
  rewrite E.
  destruct n as [|[|n]], ys as [|y [|y' ys]]; simpl in *; try lia;
    reflexivity.
Qed.

Lemma binop_raise_l op e b : np_binop op (Raise e) b = Raise e.
Proof. reflexivity. Qed.

(** X8. What becomes of the unchecked [rv].  On arrays of a common length
    [N] (error arrays absent or of length [N]), [equatorial_UVW] returns
    when [rv] is a scalar, an array of length [N] or an array of length 1,
    and also, whatever [rv], when [N = 1]; in every other case it raises
    numpy's broadcasting ValueError. *)
Theorem equatorial_UVW_rv_broadcast (N : nat)
  (ra dec pmra pmdec rv dist : value)
  (pmra_error pmdec_error rv_error dist_error : option value) :
  has_len N ra -> has_len N dec -> has_len N pmra -> has_len N pmdec ->
  has_len N dist ->
  opt_has_len N pmra_error -> opt_has_len N pmdec_error ->
  opt_has_len N rv_error -> opt_has_len N dist_error ->
  (bsized N rv \/ N = 1%nat ->
   returns (equatorial_UVW ra dec pmra pmdec rv dist
              pmra_error pmdec_error rv_error dist_error))
  /\ (~ bsized N rv -> N <> 1%nat ->
      equatorial_UVW ra dec pmra pmdec rv dist
        pmra_error pmdec_error rv_error dist_error
      = Raise (ValueError broadcast_message)).
Proof.
  intros Hra Hdec Hpmra Hpmdec Hdist H1 H2 H3 H4.
  assert (Hsz : forall v, has_len N v -> np_size v = N /\ is_sequence v).
  { intros [x|xs]; simpl; [contradiction | now split]. }
  assert (Hosz : forall e, opt_has_len N e ->
                   opt_size_ok N e /\ opt_is_sequence e).
  { intros [v|]; simpl; [apply Hsz | now split]. }
  split.
  - intros Hrv.
    assert (HM : exists M, (N = M \/ N = 1%nat) /\ bsized M rv).
    { destruct Hrv as [Hrv|Hrv].
      - exists N. split; [now left | assumption].
      - exists (np_size rv). split; [now right|].
        now apply bsized_of_size. }
    destruct HM as (M & HN & Brv).
    assert (HB : forall v, has_len N v -> bsized M v).
    { intros v Hv. destruct (Hsz v Hv) as [Hs _].
      destruct HN as [<-|HN1]; [now apply bsized_of_size|].
      apply bsized_unit. now rewrite Hs. }
    assert (HOB : forall e, opt_has_len N e -> opt_bsized M e).
    { intros [v|]; simpl; [apply HB | trivial]. }
    apply (equatorial_UVW_returns M N);
      try (apply Hsz; assumption); try (apply Hosz; assumption);
      try (apply HB; assumption); try (apply HOB; assumption);
      assumption.
  - intros Hrv HN.
    destruct rv as [x|ys]; [now elim Hrv|]. simpl in Hrv.
    assert (L1 : length ys <> N) by tauto.
    assert (L2 : length ys <> 1%nat) by tauto.
    clear Hsz Hosz. to_tab.
    unfold equatorial_UVW.
    rewrite !np_size_tab, Nat.eqb_refl, !supplied_mismatch_tab.
    cbn [negb orb]. np_eval.
    rewrite !binop_tab_mismatch by assumption.
    rewrite !binop_raise_l. reflexivity.
Qed.

Lemma equatorial_UVW_rv_broadcast_witness :
  returns (equatorial_UVW (Array [10; 200; 30]) (Array [-5; 40; 0])
             (Array [3; -2; 1]) (Array [1; 7; 2]) (Scalar (-20))
             (Array [100; 250; 80]) None None (Some (Array [1; 1; 2])) None)
  /\ equatorial_UVW (Array [10; 200; 30]) (Array [-5; 40; 0])
       (Array [3; -2; 1]) (Array [1; 7; 2]) (Array [-20; 15])
       (Array [100; 250; 80]) None None (Some (Array [1; 1; 2])) None
     = Raise (ValueError broadcast_message).
Proof.
  split.
  - apply (proj1 (equatorial_UVW_rv_broadcast 3
                    (Array [10; 200; 30]) (Array [-5; 40; 0])
                    (Array [3; -2; 1]) (Array [1; 7; 2]) (Scalar (-20))
                    (Array [100; 250; 80]) None None
                    (Some (Array [1; 1; 2])) None
                    eq_refl eq_refl eq_refl eq_refl eq_refl I I eq_refl I)).
    left. exact I.
  - apply (proj2 (equatorial_UVW_rv_broadcast 3
                    (Array [10; 200; 30]) (Array [-5; 40; 0])
                    (Array [3; -2; 1]) (Array [1; 7; 2]) (Array [-20; 15])
                    (Array [100; 250; 80]) None None
                    (Some (Array [1; 1; 2])) None
                    eq_refl eq_refl eq_refl eq_refl eq_refl I I eq_refl I)).
    + simpl. lia.
    + lia.
Defined.

(** ** The error bars of equatorial_UVW *)

Lemma or_zero_item e : or_zero (option_map item e) = err_item e.
Proof. now destruct e. Qed.

Lemma sqrt_sum_squares a b : sqrt (a ^ 2 + b ^ 2) ^ 2 = a ^ 2 + b ^ 2.
Proof.
  rewrite <- Rsqr_pow2. apply Rsqr_sqrt.
  pose proof (pow2_ge_0 a). pose proof (pow2_ge_0 b). lra.
Qed.

(** The square of the error bar of one star: its variance. *)
Lemma velocity_error_variance r ra dec pmra pmdec dist e1 e2 e3 e4 :
  Star.velocity_error r ra dec pmra pmdec dist e1 e2 e3 e4 ^ 2
  = (Star.T_rv r ra dec * e3) ^ 2
    + ((Star.T_pmra r ra dec * e1) ^ 2 + (Star.T_pmdec r ra dec * e2) ^ 2)
      * (kappa * dist) ^ 2
    + ((Star.T_pmra r ra dec * pmra) ^ 2
       + (Star.T_pmdec r ra dec * pmdec) ^ 2) * (kappa * e4) ^ 2
    + ((Star.T_pmra r ra dec * e1) ^ 2 + (Star.T_pmdec r ra dec * e2) ^ 2)
      * (kappa * e4) ^ 2.
Proof.
  unfold Star.velocity_error. cbv zeta.
  set (A := (Star.T_pmra r ra dec * pmra) ^ 2
            + (Star.T_pmdec r ra dec * pmdec) ^ 2).
  set (B := (Star.T_pmra r ra dec * e1) ^ 2
            + (Star.T_pmdec r ra dec * e2) ^ 2).
  assert (EA : sqrt A ^ 2 = A) by apply sqrt_sum_squares.
  assert (EB : sqrt B ^ 2 = B) by apply sqrt_sum_squares.
  rewrite <- Rsqr_pow2, Rsqr_sqrt.
  - transitivity ((Star.T_rv r ra dec * e3) ^ 2
                  + sqrt B ^ 2 * (kappa * dist) ^ 2
                  + sqrt A ^ 2 * (kappa * e4) ^ 2
                  + sqrt B ^ 2 * (kappa * e4) ^ 2); [ring|].
    rewrite EA, EB. reflexivity.
  - pose proof (pow2_ge_0 (Star.T_rv r ra dec * e3)).
    pose proof (pow2_ge_0 (sqrt B * (kappa * dist))).
    pose proof (pow2_ge_0 (sqrt A * (kappa * e4))).
    pose proof (pow2_ge_0 (sqrt B * (kappa * e4))).
    lra.
Qed.

(** X9. With at least one error array supplied, on arrays of a common
    length [N], the error bars are non-negative and their squares are the
    sums of four variances; for [EU], with absent errors read as zero,
    [EU^2 = (T1*rv_error)^2
            + ((T2*pmra_error)^2 + (T3*pmdec_error)^2)*(kappa*dist)^2
            + ((T2*pmra)^2 + (T3*pmdec)^2)*(kappa*dist_error)^2
            + ((T2*pmra_error)^2 + (T3*pmdec_error)^2)*(kappa*dist_error)^2],
    and likewise [EV] from [T4, T5, T6] and [EW] from [T7, T8, T9]. *)
Theorem equatorial_UVW_variance (N : nat)
  (ra dec pmra pmdec rv dist : value)
  (pmra_error pmdec_error rv_error dist_error : option value) :
  has_len N ra -> has_len N dec -> has_len N pmra -> has_len N pmdec ->
  has_len N rv -> has_len N dist ->
  opt_has_len N pmra_error -> opt_has_len N pmdec_error ->
  opt_has_len N rv_error -> opt_has_len N dist_error ->
  all_None pmra_error pmdec_error rv_error dist_error = false ->
  exists U V W EU EV EW,
    equatorial_UVW ra dec pmra pmdec rv dist
      pmra_error pmdec_error rv_error dist_error
    = Ok [U; V; W; EU; EV; EW]
    /\ has_len N EU /\ has_len N EV /\ has_len N EW
    /\ forall i, (i < N)%nat ->
         let variance Tr Ta Tb :=
           (Tr (item ra i) (item dec i) * err_item rv_error i) ^ 2
           + ((Ta (item ra i) (item dec i) * err_item pmra_error i) ^ 2
              + (Tb (item ra i) (item dec i) * err_item pmdec_error i) ^ 2)
             * (kappa * item dist i) ^ 2
           + ((Ta (item ra i) (item dec i) * item pmra i) ^ 2
              + (Tb (item ra i) (item dec i) * item pmdec i) ^ 2)
             * (kappa * err_item dist_error i) ^ 2
           + ((Ta (item ra i) (item dec i) * err_item pmra_error i) ^ 2
              + (Tb (item ra i) (item dec i) * err_item pmdec_error i) ^ 2)
             * (kappa * err_item dist_error i) ^ 2 in
         (0 <= item EU i
          /\ item EU i ^ 2 = variance Star.T1 Star.T2 Star.T3)
         /\ (0 <= item EV i
             /\ item EV i ^ 2 = variance Star.T4 Star.T5 Star.T6)
         /\ (0 <= item EW i
             /\ item EW i ^ 2 = variance Star.T7 Star.T8 Star.T9).
Proof.
  intros Hra Hdec Hpmra Hpmdec Hrv Hdist H1 H2 H3 H4 Hsome.
  rewrite <- !or_zero_item.
  assert (Hsome' :
    all_None (tab_opt N (option_map item pmra_error))
      (tab_opt N (option_map item pmdec_error))
      (tab_opt N (option_map item rv_error))
      (tab_opt N (option_map item dist_error)) = false).
  { rewrite <- Hsome.
    now destruct pmra_error, pmdec_error, rv_error, dist_error. }
  to_tab.
  rewrite equatorial_UVW_tab, Hsome'. cbn [map app].
  do 6 eexists. split; [reflexivity|].
  repeat (split; [apply has_len_tab_intro|]).
  intros i Hi. cbv zeta. rewrite !item_tab by assumption.
  repeat split;
    first [apply velocity_error_nonneg | apply velocity_error_variance].
Qed.

Lemma equatorial_UVW_variance_witness :
  exists U V W EU EV EW,
    equatorial_UVW (Array [10; 200]) (Array [-5; 40]) (Array [3; -2])
      (Array [1; 7]) (Array [-20; 15]) (Array [100; 250])
      None (Some (Array [0.5; 0.25])) None (Some (Array [4; 9]))
    = Ok [U; V; W; EU; EV; EW]
    /\ 0 <= item EU 1.
Proof.
  destruct (equatorial_UVW_variance 2
              (Array [10; 200]) (Array [-5; 40]) (Array [3; -2])
              (Array [1; 7]) (Array [-20; 15]) (Array [100; 250])
              None (Some (Array [0.5; 0.25])) None (Some (Array [4; 9])))
    as (U & V & W & EU & EV & EW & Hrun & _ & _ & _ & Hv);
    try reflexivity; try exact I.
  exists U, V, W, EU, EV, EW. split; [exact Hrun|].
  destruct (Hv 1%nat) as [[Hpos _] _]; [lia | exact Hpos].
Defined.

(** X10. The error bars do not depend on the radial velocities: two calls
    that differ in [rv] alone return the same [EU], [EV], [EW]. *)
Theorem equatorial_UVW_errors_ignore_rv (N : nat)
  (ra dec pmra pmdec rv rv' dist : value)
  (pmra_error pmdec_error rv_error dist_error : option value) :
  has_len N ra -> has_len N dec -> has_len N pmra -> has_len N pmdec ->
  has_len N rv -> has_len N rv' -> has_len N dist ->
  opt_has_len N pmra_error -> opt_has_len N pmdec_error ->
  opt_has_len N rv_error -> opt_has_len N dist_error ->
  all_None pmra_error pmdec_error rv_error dist_error = false ->
  exists U V W U' V' W' EU EV EW,
    equatorial_UVW ra dec pmra pmdec rv dist
      pmra_error pmdec_error rv_error dist_error
    = Ok [U; V; W; EU; EV; EW]
    /\ equatorial_UVW ra dec pmra pmdec rv' dist
         pmra_error pmdec_error rv_error dist_error
       = Ok [U'; V'; W'; EU; EV; EW].
Proof.
  intros Hra Hdec Hpmra Hpmdec Hrv Hrv' Hdist H1 H2 H3 H4 Hsome.
  assert (Hsome' :
    all_None (tab_opt N (option_map item pmra_error))
      (tab_opt N (option_map item pmdec_error))
      (tab_opt N (option_map item rv_error))
      (tab_opt N (option_map item dist_error)) = false).
  { rewrite <- Hsome.
    now destruct pmra_error, pmdec_error, rv_error, dist_error. }
  to_tab. rewrite !equatorial_UVW_tab, Hsome'. cbn [map app].
  do 9 eexists. split; reflexivity.
Qed.

Lemma equatorial_UVW_errors_ignore_rv_witness :
  exists U V W U' V' W' EU EV EW,
    equatorial_UVW (Array [10; 200]) (Array [-5; 40]) (Array [3; -2])
      (Array [1; 7]) (Array [-20; 15]) (Array [100; 250])
      None (Some (Array [0.5; 0.25])) None None
    = Ok [U; V; W; EU; EV; EW]
    /\ equatorial_UVW (Array [10; 200]) (Array [-5; 40]) (Array [3; -2])
         (Array [1; 7]) (Array [0; 300]) (Array [100; 250])
         None (Some (Array [0.5; 0.25])) None None
       = Ok [U'; V'; W'; EU; EV; EW].
Proof.
  apply (equatorial_UVW_errors_ignore_rv 2
           (Array [10; 200]) (Array [-5; 40]) (Array [3; -2])
           (Array [1; 7]) (Array [-20; 15]) (Array [0; 300])
           (Array [100; 250])
           None (Some (Array [0.5; 0.25])) None None);
    try reflexivity; exact I.
Defined.

(** ** Velocities add up *)

Lemma velocity_linear r ra dec dist a b pmra1 pmdec1 rv1 pmra2 pmdec2 rv2 :
  Star.velocity r ra dec (a * pmra1 + b * pmra2) (a * pmdec1 + b * pmdec2)
    (a * rv1 + b * rv2) dist
  = a * Star.velocity r ra dec pmra1 pmdec1 rv1 dist
    + b * Star.velocity r ra dec pmra2 pmdec2 rv2 dist.
Proof. unfold Star.velocity. ring. Qed.

(** X11. [equatorial_UVW] is linear in the motion: for stars at the same
    places and distances, if [(pmra, pmdec, rv)] is [a] times a first
    motion plus [b] times a second, star by star, then [(U, V, W)] is [a]
    times the first velocity plus [b] times the second. *)
Theorem equatorial_UVW_linear (N : nat) (a b : R)
  (ra dec dist pmra pmdec rv pmra1 pmdec1 rv1 pmra2 pmdec2 rv2 : value) :
  has_len N ra -> has_len N dec -> has_len N dist ->
  has_len N pmra -> has_len N pmdec -> has_len N rv ->
  has_len N pmra1 -> has_len N pmdec1 -> has_len N rv1 ->
  has_len N pmra2 -> has_len N pmdec2 -> has_len N rv2 ->
  (forall i, (i < N)%nat ->
     item pmra i = a * item pmra1 i + b * item pmra2 i
     /\ item pmdec i = a * item pmdec1 i + b * item pmdec2 i
     /\ item rv i = a * item rv1 i + b * item rv2 i) ->
  exists U V W U1 V1 W1 U2 V2 W2,
    equatorial_UVW ra dec pmra pmdec rv dist None None None None
    = Ok [U; V; W]
    /\ equatorial_UVW ra dec pmra1 pmdec1 rv1 dist None None None None
       = Ok [U1; V1; W1]
    /\ equatorial_UVW ra dec pmra2 pmdec2 rv2 dist None None None None
       = Ok [U2; V2; W2]
    /\ forall i, (i < N)%nat ->
         item U i = a * item U1 i + b * item U2 i
         /\ item V i = a * item V1 i + b * item V2 i
         /\ item W i = a * item W1 i + b * item W2 i.
Proof.
  intros Hra Hdec Hdist Hpmra Hpmdec Hrv Hp1 Hd1 Hr1 Hp2 Hd2 Hr2 Hlin.
  to_tab. change (@None value) with (tab_opt N None).
  rewrite !equatorial_UVW_tab.
  cbn [map app all_None tab_opt option_map is_None andb].
  do 9 eexists. repeat (split; [reflexivity|]).
  intros i Hi. rewrite !item_tab by assumption.
  destruct (Hlin i Hi) as (-> & -> & ->).
  repeat split; apply velocity_linear.
Qed.

Lemma equatorial_UVW_linear_witness :
  exists U V W U1 V1 W1 U2 V2 W2,
    equatorial_UVW (Array [10; 200]) (Array [-5; 40]) (Array [5; 4])
      (Array [9; -7]) (Array [-5; 6]) (Array [100; 250])
      None None None None = Ok [U; V; W]
    /\ equatorial_UVW (Array [10; 200]) (Array [-5; 40]) (Array [1; 2])
         (Array [3; -2]) (Array [-1; 0]) (Array [100; 250])
         None None None None = Ok [U1; V1; W1]
    /\ equatorial_UVW (Array [10; 200]) (Array [-5; 40]) (Array [1; 0])
         (Array [1; -1]) (Array [-1; 2]) (Array [100; 250])
         None None None None = Ok [U2; V2; W2]
    /\ item U 1 = 2 * item U1 1 + 3 * item U2 1.
Proof.
  destruct (equatorial_UVW_linear 2 2 3
              (Array [10; 200]) (Array [-5; 40]) (Array [100; 250])
              (Array [5; 4]) (Array [9; -7]) (Array [-5; 6])
              (Array [1; 2]) (Array [3; -2]) (Array [-1; 0])
              (Array [1; 0]) (Array [1; -1]) (Array [-1; 2]))
    as (U & V & W & U1 & V1 & W1 & U2 & V2 & W2 & H & H1 & H2 & Hl);
    try reflexivity.
  - intros [|[|i]] Hi; simpl; try lia; repeat split; lra.
  - exists U, V, W, U1, V1, W1, U2, V2, W2.
    repeat (split; [assumption|]). apply (Hl 1%nat). lia.
Defined.

(** ** Whole turns, again *)






(** ** A scalar where a loop expects a sequence *)




